(** * AdSnap Studio: the API request/response layer, embedded and verified

    The development follows the Python sources of the repository:

    - [services/api_base.py]                    (transport client, file validation)
    - [services/hd_image_generation_improved.py] (parameter validation, response handling)
    - [utils/performance_monitor.py]            (the [api_calls] event log)
    - [app_improved.py]                         ([APIManager.make_api_call], [validate_image])
    - [app_cleaned.py]                          ([log_generation_attempt], [safe_api_call])

    Python code is embedded shallowly: dynamically typed values are one
    inductive type, exceptions are data carried by an outcome type, and
    mutable state ([st.session_state], the clock, the network) is passed
    explicitly through a small state-and-exception monad. *)

From Stdlib Require Import ZArith NArith QArith List String Ascii Bool Lia Lqa.
From Stdlib.Strings Require Import Byte.
From Stdlib Require Import DecimalString.
Import ListNotations.

Set Warnings "-register-all".

Local Open Scope Z_scope.
Local Open Scope string_scope.

(* ================================================================== *)
(** * Python values, exceptions and the effect monad *)
(* ================================================================== *)

Module Py.

(** The exception classes the modelled code can meet, with the base classes
    Python, [requests], [binascii], [json] and PIL declare for them. *)
Inductive exc_class : Type :=
| BaseException
| KeyboardInterrupt
| SystemExit
| Exception
| ArithmeticError
| ZeroDivisionError
| LookupError
| IndexError
| KeyError
| TypeError
| ValueError
| OSError
| binascii_Error
| JSONDecodeError
| UnidentifiedImageError
| RequestException
| HTTPError
| ConnectionError
| Timeout
| ConnectTimeout
| ReadTimeout
| InvalidJSONError
| RequestsJSONDecodeError.

Definition exc_class_eq_dec (a b : exc_class) : {a = b} + {a <> b}.
Proof. decide equality. Defined.

Definition exc_class_eqb (a b : exc_class) : bool :=
  if exc_class_eq_dec a b then true else false.

(** [bases c] are the direct base classes of [c] (several for the classes of
    [requests] that use multiple inheritance). *)
Definition bases (c : exc_class) : list exc_class :=
  match c with
  | BaseException => []
  | KeyboardInterrupt | SystemExit | Exception => [BaseException]
  | ArithmeticError | LookupError | TypeError | ValueError | OSError => [Exception]
  | ZeroDivisionError => [ArithmeticError]
  | IndexError | KeyError => [LookupError]
  | binascii_Error | JSONDecodeError => [ValueError]
  | UnidentifiedImageError => [OSError]
  | RequestException => [OSError]
  | HTTPError | ConnectionError | Timeout | InvalidJSONError => [RequestException]
  | ConnectTimeout => [ConnectionError; Timeout]
  | ReadTimeout => [Timeout]
  | RequestsJSONDecodeError => [InvalidJSONError; JSONDecodeError]
  end.

Fixpoint issubclass_fuel (fuel : nat) (c d : exc_class) : bool :=
  exc_class_eqb c d ||
  match fuel with
  | O => false
  | S n => existsb (fun b => issubclass_fuel n b d) (bases c)
  end.

(** The hierarchy above is six levels deep. *)
Definition issubclass (c d : exc_class) : bool := issubclass_fuel 6 c d.

(** A raised exception: its class and the text [str(e)] yields. *)
Record exc : Type := mkExc { exc_cls : exc_class; exc_str : string }.

Definition isinstance (e : exc) (c : exc_class) : bool := issubclass (exc_cls e) c.

(** Dynamically typed values.  Floats are modelled by the rationals they
    denote (exact arithmetic; NaN and the infinities are not represented).
    A PIL image is represented by the byte content it was opened from. *)
Inductive value : Type :=
| VNone
| VBool (b : bool)
| VInt (z : Z)
| VFloat (q : Q)
| VStr (s : string)
| VList (l : list value)
| VTuple (l : list value)
| VDict (d : list (string * value))
| VImage (content : list byte).

Definition type_name (v : value) : string :=
  match v with
  | VNone => "NoneType"
  | VBool _ => "bool"
  | VInt _ => "int"
  | VFloat _ => "float"
  | VStr _ => "str"
  | VList _ => "list"
  | VTuple _ => "tuple"
  | VDict _ => "dict"
  | VImage _ => "Image"
  end.

(** Truthiness, as [if v:] and [v and ...] test it. *)
Definition truthy (v : value) : bool :=
  match v with
  | VNone => false
  | VBool b => b
  | VInt z => negb (Z.eqb z 0)
  | VFloat q => negb (Qeq_bool q 0)
  | VStr s => negb (String.eqb s "")
  | VList l | VTuple l => match l with [] => false | _ => true end
  | VDict d => match d with [] => false | _ => true end
  | VImage _ => true
  end.

(** The outcome of running a piece of Python: a value or a raised exception. *)
Inductive outcome (A : Type) : Type :=
| Returns (a : A)
| Raises (e : exc).
Arguments Returns {A} a.
Arguments Raises {A} e.

Definition raise_ {A} (c : exc_class) (msg : string) : outcome A :=
  Raises (mkExc c msg).

(** Computations over a state [S] that may raise.  The state a computation
    leaves behind is kept when it raises: mutations made before the [raise]
    stay visible, as in Python. *)
Definition M (S A : Type) : Type := S -> outcome A * S.

Definition ret {S A} (a : A) : M S A := fun s => (Returns a, s).

Definition throw {S A} (c : exc_class) (msg : string) : M S A :=
  fun s => (raise_ c msg, s).

Definition rethrow {S A} (e : exc) : M S A := fun s => (Raises e, s).

Definition bind {S A B} (m : M S A) (k : A -> M S B) : M S B :=
  fun s =>
    match m s with
    | (Returns a, s') => k a s'
    | (Raises e, s') => (Raises e, s')
    end.

Definition gets {S A} (f : S -> A) : M S A := fun s => (Returns (f s), s).

Definition modify {S} (f : S -> S) : M S unit := fun s => (Returns tt, f s).

(** [try: body  except <clauses>]: [handler e] is [Some h] when one of the
    clauses matches [e] (the first that does), and [None] when none matches
    and [e] propagates. *)
Definition try_except {S A} (body : M S A) (handler : exc -> option (M S A)) : M S A :=
  fun s =>
    match body s with
    | (Returns a, s') => (Returns a, s')
    | (Raises e, s') =>
        match handler e with
        | Some h => h s'
        | None => (Raises e, s')
        end
    end.

(** [try: body  finally: fin]: [fin] runs on both exits; an exception raised
    by [fin] itself replaces the pending outcome. *)
Definition try_finally {S A} (body : M S A) (fin : M S unit) : M S A :=
  fun s =>
    match body s with
    | (r, s') =>
        match fin s' with
        | (Returns _, s'') => (r, s'')
        | (Raises e, s'') => (Raises e, s'')
        end
    end.

(** [str(z)] and [f"{z}"] for an [int]. *)
Definition str_of_int (z : Z) : string := NilZero.string_of_int (Z.to_int z).

(** [sep.join(parts)]. *)
Definition join (sep : string) (parts : list string) : string := String.concat sep parts.

(** [needle in haystack] for two strings (substring test). *)
Definition str_contains (needle haystack : string) : bool :=
  match String.index 0 needle haystack with
  | Some _ => true
  | None => false
  end.

(** [key in container] with a string key, for each type of container.  A
    dictionary is searched by key, a list or tuple by element, a string by
    substring; the other types are not iterable. *)
Definition is_str (k : string) (v : value) : bool :=
  match v with
  | VStr s => String.eqb s k
  | _ => false
  end.

Fixpoint dict_get (d : list (string * value)) (k : string) : option value :=
  match d with
  | [] => None
  | (k', v) :: rest => if String.eqb k' k then Some v else dict_get rest k
  end.

Definition contains (k : string) (container : value) : outcome bool :=
  match container with
  | VDict d => Returns (match dict_get d k with Some _ => true | None => false end)
  | VList l | VTuple l => Returns (existsb (is_str k) l)
  | VStr s => Returns (str_contains k s)
  | v => raise_ TypeError ("argument of type '" ++ type_name v ++ "' is not iterable")
  end.

(** [container[key]] with a string key. *)
Definition getitem_str (container : value) (k : string) : outcome value :=
  match container with
  | VDict d =>
      match dict_get d k with
      | Some v => Returns v
      | None => raise_ KeyError ("'" ++ k ++ "'")
      end
  | VList _ => raise_ TypeError "list indices must be integers or slices, not str"
  | VTuple _ => raise_ TypeError "tuple indices must be integers or slices, not str"
  | VStr _ => raise_ TypeError "string indices must be integers, not 'str'"
  | v => raise_ TypeError ("'" ++ type_name v ++ "' object is not subscriptable")
  end.

(** [container[0]]. *)
Definition getitem_0 (container : value) : outcome value :=
  match container with
  | VList l =>
      match l with
      | x :: _ => Returns x
      | [] => raise_ IndexError "list index out of range"
      end
  | VTuple l =>
      match l with
      | x :: _ => Returns x
      | [] => raise_ IndexError "tuple index out of range"
      end
  | VStr s =>
      match s with
      | String c _ => Returns (VStr (String c EmptyString))
      | EmptyString => raise_ IndexError "string index out of range"
      end
  | VDict _ => raise_ KeyError "0"
  | v => raise_ TypeError ("'" ++ type_name v ++ "' object is not subscriptable")
  end.

(** Python's [str.strip()] removes the characters [str.isspace] accepts.  A
    character of a [string] stands for the code point of the same number;
    below 256 the whitespace code points are these. *)
Definition isspace (c : ascii) : bool :=
  let n := N_of_ascii c in
  ((9 <=? n) && (n <=? 13) || (28 <=? n) && (n <=? 32) || (n =? 133) || (n =? 160))%N.

Fixpoint lstrip (s : string) : string :=
  match s with
  | String c rest => if isspace c then lstrip rest else s
  | EmptyString => EmptyString
  end.

Fixpoint rstrip (s : string) : string :=
  match s with
  | String c rest =>
      match rstrip rest with
      | EmptyString => if isspace c then EmptyString else String c EmptyString
      | r => String c r
      end
  | EmptyString => EmptyString
  end.

Definition strip (s : string) : string := rstrip (lstrip s).

(** [str.upper()] on the ASCII letters (method names are ASCII). *)
Definition upper_char (c : ascii) : ascii :=
  let n := N_of_ascii c in
  if ((97 <=? n) && (n <=? 122))%N then ascii_of_N (n - 32) else c.

Fixpoint upper (s : string) : string :=
  match s with
  | String c rest => String (upper_char c) (upper rest)
  | EmptyString => EmptyString
  end.

End Py.

Import Py.

Declare Scope py_scope.
Delimit Scope py_scope with py.
Notation "x <- c ;; k" := (bind c (fun x => k))
  (at level 61, c at next level, right associativity) : py_scope.
Notation "c ;;; k" := (bind c (fun _ => k))
  (at level 61, right associativity) : py_scope.
Local Open Scope py_scope.

(* ================================================================== *)
(** * Base64, as Python's [base64] module and CPython's [binascii] do it *)
(* ================================================================== *)

Module Base64.

Definition alphabet : list ascii :=
  list_ascii_of_string
    "ABCDEFGHIJKLMNOPQRSTUVWXYZabcdefghijklmnopqrstuvwxyz0123456789+/".

Definition pad : ascii := "="%char.

(** The character of a six-bit group. *)
Definition b2a (n : N) : ascii := nth (N.to_nat n) alphabet "A"%char.

Fixpoint index_of (c : ascii) (l : list ascii) (i : N) : option N :=
  match l with
  | [] => None
  | x :: rest => if Ascii.eqb x c then Some i else index_of c rest (i + 1)%N
  end.

(** The six-bit group of a character of the alphabet; [None] for the others. *)
Definition a2b (c : ascii) : option N := index_of c alphabet 0%N.

Definition byte_of_N (n : N) : byte :=
  match Byte.of_N (n mod 256)%N with
  | Some b => b
  | None => x00
  end.

(** [binascii.b2a_base64(bs, newline=False)]: three bytes give four
    characters; a last group of one or two bytes is padded with [=]. *)
Fixpoint b2a_base64 (bs : list byte) : list ascii :=
  match bs with
  | [] => []
  | [x] =>
      let a := Byte.to_N x in
      [b2a (a / 4); b2a ((a mod 4) * 16); pad; pad]%N
  | [x; y] =>
      let a := Byte.to_N x in
      let b := Byte.to_N y in
      [b2a (a / 4); b2a ((a mod 4) * 16 + b / 16); b2a ((b mod 16) * 4); pad]%N
  | x :: y :: z :: rest =>
      let a := Byte.to_N x in
      let b := Byte.to_N y in
      let c := Byte.to_N z in
      ([b2a (a / 4); b2a ((a mod 4) * 16 + b / 16);
        b2a ((b mod 16) * 4 + c / 64); b2a (c mod 64)]%N) ++ b2a_base64 rest
  end.

(** [base64.b64encode(bs).decode()]. *)
Definition b64encode (bs : list byte) : string :=
  string_of_list_ascii (b2a_base64 bs).

Definition emit (n : N) (r : outcome (list byte)) : outcome (list byte) :=
  match r with
  | Returns l => Returns (byte_of_N n :: l)
  | Raises e => Raises e
  end.

(** [binascii.a2b_base64(s, strict_mode=False)]: a loop over the characters
    with the position in the current group of four ([quad_pos]), the bits
    left over from the previous character ([leftchar]), the number of pad
    characters just seen ([pads]) and the number of bytes produced so far
    ([nout]).  Characters outside the alphabet are skipped; a complete pad
    sequence ends the decoding; an incomplete last group is an error. *)
Fixpoint a2b_base64 (s : list ascii) (quad_pos leftchar pads nout : N)
  : outcome (list byte) :=
  match s with
  | [] =>
      if (quad_pos =? 0)%N then Returns []
      else if (quad_pos =? 1)%N then
        raise_ binascii_Error
          ("Invalid base64-encoded string: number of data characters ("
             ++ str_of_int (Z.of_N (nout / 3 * 4 + 1))
             ++ ") cannot be 1 more than a multiple of 4")
      else raise_ binascii_Error "Incorrect padding"
  | c :: rest =>
      if Ascii.eqb c pad then
        if ((2 <=? quad_pos) && (4 <=? quad_pos + (pads + 1)))%N then Returns []
        else a2b_base64 rest quad_pos leftchar
               (if (2 <=? quad_pos)%N then (pads + 1)%N else pads) nout
      else
        match a2b c with
        | None => a2b_base64 rest quad_pos leftchar pads nout
        | Some v =>
            match quad_pos with
            | 0%N => a2b_base64 rest 1%N v 0%N nout
            | 1%N => emit (leftchar * 4 + v / 16)
                       (a2b_base64 rest 2%N (v mod 16)%N 0%N (nout + 1)%N)
            | 2%N => emit (leftchar * 16 + v / 4)
                       (a2b_base64 rest 3%N (v mod 4)%N 0%N (nout + 1)%N)
            | _ => emit (leftchar * 64 + v)
                       (a2b_base64 rest 0%N 0%N 0%N (nout + 1)%N)
            end
        end
  end.

Definition is_ascii (c : ascii) : bool := (N_of_ascii c <? 128)%N.

(** [base64.b64decode(s)] for a [str] argument: the string is first encoded
    as ASCII, then decoded leniently ([validate=False]). *)
Definition b64decode (s : string) : outcome (list byte) :=
  let cs := list_ascii_of_string s in
  if forallb is_ascii cs then a2b_base64 cs 0%N 0%N 0%N 0%N
  else raise_ ValueError "string argument should contain only ASCII characters".

End Base64.

(* ================================================================== *)
(** * services/api_base.py *)
(* ================================================================== *)

Module ApiBase.

Inductive verb : Type := POST | GET.

(** How [requests] is given the payload: [json=data], [data=data] with
    [files=files], or [params=data]. *)
Inductive payload : Type :=
| Json (data : value)
| Multipart (data files : value)
| Params (data : value).

(** One call of [requests.post] or [requests.get]. *)
Record request : Type := mkRequest {
  req_verb : verb;
  req_url : string;
  req_headers : list (string * string);
  req_payload : payload;
  req_timeout : Z
}.

(** What the code reads of a [requests.Response]: the status, the body text
    and the outcome of [response.json()]. *)
Record response : Type := mkResponse {
  status_code : Z;
  text : string;
  json : outcome value
}.

(** The part of the world a service function works on: the wall clock
    ([time.time()], in seconds), the memory in use as [psutil] reports it,
    and the HTTP requests sent so far, oldest first.  The clock moves while
    a request is under way and while a service function runs; the few
    instructions between two readings of it take no time. *)
Record env : Type := mkEnv {
  now : Q;
  mem_used : Q;
  sent : list request
}.

(** The remote side and the [requests] library, as an oracle: given the
    requests already sent and the new one, the response or the exception
    [requests] raises, and the time the call took. *)
Definition transport : Type := list request -> request -> outcome response * Q.

Definition time_time : M env Q := gets now.

(** [requests.post(...)] / [requests.get(...)]: one HTTP attempt. *)
Definition requests_send (net : transport) (rq : request) : M env response :=
  fun e =>
    let '(r, dt) := net (sent e) rq in
    (r, mkEnv (now e + dt) (mem_used e) (sent e ++ [rq])).

Record BaseAPIService : Type := mkService {
  api_key : string;
  base_url : string
}.

(** [BaseAPIService.__init__], given [os.getenv('BRIA_API_KEY')]. *)
Definition init (getenv : option string) : outcome BaseAPIService :=
  match getenv with
  | Some k =>
      if String.eqb k "" then
        raise_ ValueError "BRIA_API_KEY not found in environment variables"
      else Returns (mkService k "https://engine.prod.bria-api.com")
  | None => raise_ ValueError "BRIA_API_KEY not found in environment variables"
  end.

Definition get_headers (self : BaseAPIService) : list (string * string) :=
  [("Authorization", "Bearer " ++ api_key self);
   ("Content-Type", "application/json")].

Definition of_outcome {S A} (r : outcome A) : M S A := fun s => (r, s).

(** [BaseAPIService.make_request].  The calls of [self.logger] write to the
    [logging] module only and are left out. *)
Definition make_request (net : transport) (self : BaseAPIService)
    (endpoint method : string) (data files : value) (timeout : Z) : M env value :=
  let url := base_url self ++ "/" ++ endpoint in
  let headers :=
    if negb (truthy files) then get_headers self
    else [("Authorization", "Bearer " ++ api_key self)] in
  start_time <- time_time ;;
  try_except
    (response <-
       (if String.eqb (upper method) "POST" then
          if truthy files then
            requests_send net (mkRequest POST url headers (Multipart data files) timeout)
          else
            requests_send net (mkRequest POST url headers (Json data) timeout)
        else if String.eqb (upper method) "GET" then
          requests_send net (mkRequest GET url headers (Params data) timeout)
        else throw ValueError ("Unsupported HTTP method: " ++ method)) ;;
     t <- time_time ;;
     let duration := (t - start_time)%Q in
     if Z.eqb (status_code response) 200 then of_outcome (json response)
     else
       let error_msg :=
         "API Error: " ++ str_of_int (status_code response) ++ " - " ++ text response in
       throw RequestException error_msg)
    (fun e =>
       if isinstance e Timeout then
         Some (throw RequestException
                 ("Request timeout after " ++ str_of_int timeout ++ "s for " ++ endpoint))
       else if isinstance e ConnectionError then
         Some (throw RequestException ("Connection error for " ++ endpoint))
       else if isinstance e Exception then
         Some (throw RequestException
                 ("Unexpected error for " ++ endpoint ++ ": " ++ exc_str e))
       else None).

(** The argument of [validate_image_file] is an arbitrary object: the code
    asks for its truth value and, with [hasattr], for its [size] and [type]
    attributes. *)
Record pyobject : Type := mkObject {
  obj_truthy : bool;
  attr_size : option Z;
  attr_type : option string
}.

Definition valid_types : list string := ["image/jpeg"; "image/png"; "image/webp"].

Definition str_in (s : string) (l : list string) : bool := existsb (String.eqb s) l.

(** [BaseAPIService.validate_image_file]. *)
Definition validate_image_file (image_file : pyobject) : outcome bool :=
  if negb (obj_truthy image_file) then Returns false
  else if match attr_size image_file with
          | Some size => (10 * 1024 * 1024 <? size)%Z
          | None => false
          end
  then raise_ ValueError "Image file too large (max 10MB)"
  else if match attr_type image_file with
          | Some ty => negb (str_in ty valid_types)
          | None => false
          end
  then raise_ ValueError ("Invalid file type. Supported: " ++ join ", " valid_types)
  else Returns true.

End ApiBase.

(* ================================================================== *)
(** * services/hd_image_generation_improved.py *)
(* ================================================================== *)

Module HDImage.
Import ApiBase.

(** PIL's format detection, as an oracle on the byte content. *)
Definition pil : Type := list byte -> bool.

(** [Image.open(io.BytesIO(image_bytes))].  The text of PIL's error goes on
    with the representation of the stream object, which depends on the run;
    only the class of the error is meant here. *)
Definition Image_open (identify : pil) (image_bytes : list byte) : outcome value :=
  if identify image_bytes then Returns (VImage image_bytes)
  else raise_ UnidentifiedImageError "cannot identify image file".

(** The "Validate parameters" block of [generate_hd_image]: the first
    violated rule raises. *)
Definition validate_parameters (prompt : string) (width height num_inference_steps : Z)
    (guidance_scale : Q) : outcome unit :=
  if negb (truthy (VStr prompt)) || Nat.eqb (String.length (strip prompt)) 0 then
    raise_ ValueError "Prompt cannot be empty"
  else if negb ((256 <=? width)%Z && (width <=? 1024)%Z) || negb (Z.eqb (width mod 64) 0) then
    raise_ ValueError "Width must be between 256-1024 and divisible by 64"
  else if negb ((256 <=? height)%Z && (height <=? 1024)%Z) || negb (Z.eqb (height mod 64) 0) then
    raise_ ValueError "Height must be between 256-1024 and divisible by 64"
  else if negb ((10 <=? num_inference_steps)%Z && (num_inference_steps <=? 50)%Z) then
    raise_ ValueError "Inference steps must be between 10-50"
  else if negb (Qle_bool 1 guidance_scale && Qle_bool guidance_scale 20) then
    raise_ ValueError "Guidance scale must be between 1.0-20.0"
  else Returns tt.

(** The "Prepare request data" block. *)
Definition request_data (prompt : string) (width height num_inference_steps : Z)
    (guidance_scale : Q) : value :=
  VDict [("prompt", VStr (strip prompt));
         ("width", VInt width);
         ("height", VInt height);
         ("num_inference_steps", VInt num_inference_steps);
         ("guidance_scale", VFloat guidance_scale)].

(** [a and b] on two tests, the second evaluated only when the first holds. *)
Definition and_then (a b : outcome bool) : outcome bool :=
  match a with
  | Returns true => b
  | Returns false => Returns false
  | Raises e => Raises e
  end.

Definition obind {A B} (r : outcome A) (k : A -> outcome B) : outcome B :=
  match r with
  | Returns a => k a
  | Raises e => Raises e
  end.

(** The "Process response" block: the response normalizer of this service. *)
Definition process_response (identify : pil) (response_data : value) : outcome value :=
  obind (and_then (contains "result" response_data)
                  (obind (getitem_str response_data "result") (contains "images")))
    (fun present =>
       if present : bool then
         obind (getitem_str response_data "result") (fun result =>
         obind (getitem_str result "images") (fun images =>
         obind (getitem_0 images) (fun image_data =>
           match image_data with
           | VStr s =>
               obind (Base64.b64decode s) (fun image_bytes =>
                 Image_open identify image_bytes)
           | _ => raise_ ValueError "Unexpected image format in response"
           end)))
       else raise_ ValueError "Invalid response format from API").

(** [HDImageGenerationService.generate_hd_image]. *)
Definition generate_hd_image (net : transport) (identify : pil) (self : BaseAPIService)
    (prompt : string) (width height num_inference_steps : Z) (guidance_scale : Q)
  : M env value :=
  of_outcome (validate_parameters prompt width height num_inference_steps guidance_scale) ;;;
  let data := request_data prompt width height num_inference_steps guidance_scale in
  response_data <- make_request net self "v1/text-to-image" "POST" data VNone 60 ;;
  of_outcome (process_response identify response_data).

End HDImage.

(* ================================================================== *)
(** * The session state ([st.session_state]) *)
(* ================================================================== *)

Module Session.
Import ApiBase.

(** An entry of [st.session_state.performance_data]. *)
Record perf_entry : Type := mkPerf {
  pe_operation : string;
  pe_duration : Q;
  pe_memory_change : Q;
  pe_timestamp : Q
}.

(** An entry of [st.session_state.api_calls]. *)
Record api_call_entry : Type := mkApiCall {
  ac_service : string;
  ac_duration : Q;
  ac_status : string;
  ac_error : option string;
  ac_timestamp : Q
}.

(** An entry of [st.session_state.generation_history]. *)
Record history_entry : Type := mkHistory {
  he_timestamp : Q;
  he_operation : string;
  he_success : bool;
  he_duration : option Q;
  he_error : option string
}.

(** [st.session_state.performance_metrics]. *)
Record performance_metrics : Type := mkMetrics {
  total_generations : Z;
  successful_generations : Z;
  average_generation_time : Q;
  error_count : Z
}.

(** The session state the two applications keep, with the messages shown
    through [st.error]. *)
Record session_state : Type := mkSession {
  performance_data : list perf_entry;
  api_calls : list api_call_entry;
  generation_history : list history_entry;
  metrics : performance_metrics;
  shown_errors : list string
}.

(** The state the orchestrators run in: the environment of the service
    functions and the session state, which service functions do not touch. *)
Record world : Type := mkWorld {
  w_env : env;
  w_session : session_state
}.

(** A service call seen from the application: its argument list applied. *)
Definition lift_env {A} (m : M env A) : M world A :=
  fun w =>
    let '(r, e') := m (w_env w) in
    (r, mkWorld e' (w_session w)).

Definition update_session (f : session_state -> session_state) : M world unit :=
  modify (fun w => mkWorld (w_env w) (f (w_session w))).

(** [initialize_session_state]: the defaults of app_cleaned.py and the empty
    lists of [PerformanceMonitor.__init__]. *)
Definition initial_session : session_state :=
  mkSession [] [] [] (mkMetrics 0 0 0 0) [].

Definition wall_clock : M world Q := gets (fun w => now (w_env w)).

Definition st_error (msg : string) : M world unit :=
  update_session (fun s =>
    mkSession (performance_data s) (api_calls s) (generation_history s) (metrics s)
              (shown_errors s ++ [msg])).

End Session.

(* ================================================================== *)
(** * utils/performance_monitor.py *)
(* ================================================================== *)

Module PerformanceMonitor.
Import ApiBase Session.

Definition virtual_memory_used_mb : M world Q :=
  gets (fun w => (mem_used (w_env w) / 1024 / 1024)%Q).

(** [with performance_monitor.monitor_operation(operation_name): body]. *)
Definition monitor_operation {A} (operation_name : string) (body : M world A) : M world A :=
  start_time <- wall_clock ;;
  start_memory <- virtual_memory_used_mb ;;
  try_finally body
    (end_time <- wall_clock ;;
     end_memory <- virtual_memory_used_mb ;;
     let duration := (end_time - start_time)%Q in
     let memory_change := (end_memory - start_memory)%Q in
     timestamp <- wall_clock ;;
     update_session (fun s =>
       mkSession
         (performance_data s ++ [mkPerf operation_name duration memory_change timestamp])
         (api_calls s) (generation_history s) (metrics s) (shown_errors s))).

(** [PerformanceMonitor.log_api_call]. *)
Definition log_api_call (service : string) (duration : Q) (status : string)
    (error : option string) : M world unit :=
  timestamp <- wall_clock ;;
  update_session (fun s =>
    mkSession (performance_data s)
              (api_calls s ++ [mkApiCall service duration status error timestamp])
              (generation_history s) (metrics s) (shown_errors s)).

End PerformanceMonitor.

(* ================================================================== *)
(** * app_improved.py *)
(* ================================================================== *)

Module AppImproved.
Import ApiBase Session.

(** [APIManager.make_api_call], with the call of [api_function] on its
    arguments given as the computation it stands for.  The calls of [logger] (the
    [logging] module) are left out. *)
Definition make_api_call (service_name : string) (api_function : M env value)
  : M world value :=
  start_time <- wall_clock ;;
  try_except
    (result <- PerformanceMonitor.monitor_operation ("API_" ++ service_name)
                 (lift_env api_function) ;;
     t <- wall_clock ;;
     let duration := (t - start_time)%Q in
     PerformanceMonitor.log_api_call service_name duration "success" None ;;;
     ret (VTuple [result; VNone]))
    (fun e =>
       if isinstance e Exception then
         Some (t <- wall_clock ;;
               let duration := (t - start_time)%Q in
               let error_msg := exc_str e in
               PerformanceMonitor.log_api_call service_name duration "error"
                 (Some error_msg) ;;;
               ret (VTuple [VNone; VStr error_msg]))
       else None).

(** What the code reads of a Streamlit [UploadedFile]. *)
Record UploadedFile : Type := mkUpload {
  name : string;
  size : Z;
  type_ : string
}.

(** [validate_image]; [None] is Python's [None]. *)
Definition validate_image (image_file : option UploadedFile) : bool * string :=
  match image_file with
  | None => (false, "No image file provided")
  | Some f =>
      if (10 * 1024 * 1024 <? size f)%Z then (false, "Image file too large (max 10MB)")
      else
        let valid_types := ["image/jpeg"; "image/png"; "image/webp"] in
        if negb (str_in (type_ f) valid_types) then
          (false, "Invalid file type. Supported: " ++ join ", " valid_types)
        else (true, "Valid image")
  end.

(** An uploaded file as the object [validate_image_file] receives: it is
    truthy and has both attributes. *)
Definition as_object (f : UploadedFile) : pyobject :=
  mkObject true (Some (size f)) (Some (type_ f)).

End AppImproved.

(* ================================================================== *)
(** * app_cleaned.py *)
(* ================================================================== *)

Module AppCleaned.
Import ApiBase Session.

Definition set_metrics (m : performance_metrics) : M world unit :=
  update_session (fun s =>
    mkSession (performance_data s) (api_calls s) (generation_history s) m (shown_errors s)).

Definition get_metrics : M world performance_metrics := gets (fun w => metrics (w_session w)).

(** The last [n] elements: the slice [l[-n:]] for a positive [n]. *)
Definition last_n {A} (n : nat) (l : list A) : list A := skipn (List.length l - n) l.

(** [if duration:] for an optional float. *)
Definition duration_truthy (duration : option Q) : bool :=
  match duration with
  | Some d => truthy (VFloat d)
  | None => false
  end.

(** [log_generation_attempt].  The counters and the history are exact; the
    running average is computed on rationals where the source computes it on
    floats, so its value stands for the source's only up to rounding. *)
Definition log_generation_attempt (operation_type : string) (success : bool)
    (duration : option Q) (error : option string) : M world unit :=
  timestamp <- wall_clock ;;
  m <- get_metrics ;;
  set_metrics (mkMetrics (total_generations m + 1) (successful_generations m)
                 (average_generation_time m) (error_count m)) ;;;
  (if success then
     m <- get_metrics ;;
     set_metrics (mkMetrics (total_generations m) (successful_generations m + 1)
                    (average_generation_time m) (error_count m)) ;;;
     match duration with
     | Some d =>
         if duration_truthy duration then
           m <- get_metrics ;;
           let current_avg := average_generation_time m in
           let total_successful := successful_generations m in
           if Z.eqb total_successful 0 then throw ZeroDivisionError "float division by zero"
           else
             let new_avg :=
               (((current_avg * inject_Z (total_successful - 1)) + d)
                  / inject_Z total_successful)%Q in
             set_metrics (mkMetrics (total_generations m) (successful_generations m)
                            new_avg (error_count m))
         else ret tt
     | None => ret tt
     end
   else
     m <- get_metrics ;;
     set_metrics (mkMetrics (total_generations m) (successful_generations m)
                    (average_generation_time m) (error_count m + 1))) ;;;
  let history_entry := mkHistory timestamp operation_type success duration error in
  update_session (fun s =>
    mkSession (performance_data s) (api_calls s)
              (generation_history s ++ [history_entry]) (metrics s) (shown_errors s)) ;;;
  update_session (fun s =>
    if (100 <? List.length (generation_history s))%nat then
      mkSession (performance_data s) (api_calls s)
                (last_n 100 (generation_history s)) (metrics s) (shown_errors s)
    else s).

(** [safe_api_call], with the call of [api_function] on its arguments
    given as the computation it stands for. *)
Definition safe_api_call (api_function : M env value) (operation_name : string)
  : M world value :=
  start_time <- wall_clock ;;
  try_except
    (result <- lift_env api_function ;;
     t <- wall_clock ;;
     let duration := (t - start_time)%Q in
     log_generation_attempt operation_name true (Some duration) None ;;;
     ret result)
    (fun e =>
       if isinstance e RequestException then
         Some (t <- wall_clock ;;
               let duration := (t - start_time)%Q in
               let error_msg := "Network error: " ++ exc_str e in
               log_generation_attempt operation_name false (Some duration) (Some error_msg) ;;;
               st_error ("Network error in " ++ operation_name ++ ": " ++ exc_str e) ;;;
               ret VNone)
       else if isinstance e ValueError then
         Some (t <- wall_clock ;;
               let duration := (t - start_time)%Q in
               let error_msg := "Invalid input: " ++ exc_str e in
               log_generation_attempt operation_name false (Some duration) (Some error_msg) ;;;
               st_error ("Invalid input for " ++ operation_name ++ ": " ++ exc_str e) ;;;
               ret VNone)
       else if isinstance e Exception then
         Some (t <- wall_clock ;;
               let duration := (t - start_time)%Q in
               let error_msg := "Unexpected error: " ++ exc_str e in
               log_generation_attempt operation_name false (Some duration) (Some error_msg) ;;;
               st_error ("Unexpected error in " ++ operation_name ++ ": " ++ exc_str e) ;;;
               ret VNone)
       else None).

End AppCleaned.

(* ================================================================== *)
(** * utils/performance_monitor.py: the summary *)
(* ================================================================== *)

Module PerformanceSummary.
Import ApiBase Session.

(** The dictionary [get_performance_summary] returns when there is data. *)
Record summary : Type := mkSummary {
  total_operations : Z;
  avg_duration : Q;
  max_duration : Q;
  total_memory_change : Q;
  operations_per_minute : Q
}.

(** Column sum, maximum and minimum, taken from the first row on. *)
Definition column_sum (l : list Q) : Q := fold_left Qplus l 0%Q.

Definition larger (a x : Q) : Q := if Qle_bool x a then a else x.

Definition smaller (a x : Q) : Q := if Qle_bool a x then a else x.

Definition column_max (first : Q) (rest : list Q) : Q := fold_left larger rest first.

Definition column_min (first : Q) (rest : list Q) : Q := fold_left smaller rest first.

(** [max(1, x)]. *)
Definition at_least_one (x : Q) : Q := if Qle_bool x 1 then 1%Q else x.

(** [PerformanceMonitor.get_performance_summary]; [None] is the empty
    dictionary returned when nothing has been monitored. *)
Definition get_performance_summary : M world (option summary) :=
  data <- gets (fun w => performance_data (w_session w)) ;;
  match data with
  | [] => ret None
  | first :: rest =>
      current <- wall_clock ;;
      let count := Z.of_nat (List.length data) in
      let oldest := column_min (pe_timestamp first) (map pe_timestamp rest) in
      ret (Some (mkSummary
                   count
                   (column_sum (map pe_duration data) / inject_Z count)%Q
                   (column_max (pe_duration first) (map pe_duration rest))
                   (column_sum (map pe_memory_change data))
                   (inject_Z count / at_least_one ((current - oldest) / 60))%Q))
  end.

End PerformanceSummary.

(* ================================================================== *)
(** * app_cleaned.py: the dashboard figure and the image download *)
(* ================================================================== *)

Module Dashboard.
Import ApiBase Session.

(** The "Success Rate" figure of [display_performance_dashboard]:
    [(successful_generations / max(total_generations, 1)) * 100]. *)
Definition success_rate (m : performance_metrics) : Q :=
  (inject_Z (successful_generations m) / inject_Z (Z.max (total_generations m) 1) * 100)%Q.

(** [Response.raise_for_status()] of [requests]; the reason phrase and the
    final URL of a response are given by [reason] and [final_url]. *)
Definition raise_for_status (reason final_url : response -> string) (r : response)
  : outcome unit :=
  if ((400 <=? status_code r) && (status_code r <? 500))%Z then
    raise_ HTTPError
      (str_of_int (status_code r) ++ " Client Error: " ++ reason r
         ++ " for url: " ++ final_url r)
  else if ((500 <=? status_code r) && (status_code r <? 600))%Z then
    raise_ HTTPError
      (str_of_int (status_code r) ++ " Server Error: " ++ reason r
         ++ " for url: " ++ final_url r)
  else Returns tt.

(** [download_image]; [content] gives the bytes of a response body, and the
    result [None] is Python's [None].  The call of [logger.error] is left
    out. *)
Definition download_image (net : transport) (content : response -> list byte)
    (reason final_url : response -> string) (url : string)
  : M world (option (list byte)) :=
  try_except
    (response <- lift_env (requests_send net (mkRequest GET url [] (Params VNone) 30)) ;;
     of_outcome (raise_for_status reason final_url response) ;;;
     ret (Some (content response)))
    (fun e =>
       if isinstance e Exception then
         Some (st_error ("Error downloading image: " ++ exc_str e) ;;;
               ret None)
       else None).

End Dashboard.

(* ================================================================== *)
(** * Facts about the embedding *)
(* ================================================================== *)

Import Base64 ApiBase HDImage Session PerformanceMonitor AppImproved AppCleaned.
Import PerformanceSummary Dashboard.

(** ** Vocabulary of the statements *)

(** The round trip of one six-bit group through the alphabet. *)
Definition sextet_check (k : nat) : bool :=
  match a2b (b2a (N.of_nat k)) with
  | Some m => N.eqb m (N.of_nat k)
  | None => false
  end.

(** The entry [monitor_operation] leaves in [performance_data] for a call
    that found the environment [before] and left it [after]. *)
Definition monitor_entry (name : string) (before after : env) : perf_entry :=
  mkPerf ("API_" ++ name) (now after - now before)%Q
         (mem_used after / 1024 / 1024 - mem_used before / 1024 / 1024)%Q (now after).

(** The session after one orchestrated call that logged [entry]. *)
Definition logged (name : string) (before after : env) (s : session_state)
    (entry : api_call_entry) : session_state :=
  mkSession (performance_data s ++ [monitor_entry name before after])
            (api_calls s ++ [entry]) (generation_history s) (metrics s) (shown_errors s).

(** A fresh session: clock at zero, nothing sent, nothing logged. *)
Definition env0 : env := mkEnv 0 0 [].
Definition world0 : world := mkWorld env0 initial_session.

(** One call of [log_generation_attempt], made when the environment is [e]. *)
Record attempt : Type := mkAttempt {
  at_env : env;
  at_operation : string;
  at_success : bool;
  at_duration : option Q;
  at_error : option string
}.

Definition run_attempt (w : world) (a : attempt) : world :=
  snd (log_generation_attempt (at_operation a) (at_success a) (at_duration a) (at_error a)
         (mkWorld (at_env a) (w_session w))).

(** A session in which [log_generation_attempt] is called again and again. *)
Definition run_attempts (l : list attempt) (w : world) : world :=
  fold_left run_attempt l w.

(** The usage counters agree. *)
Definition counters_consistent (m : performance_metrics) : Prop :=
  total_generations m = successful_generations m + error_count m.

(** The methods [make_request] supports. *)
Definition supported (method : string) : bool :=
  String.eqb (upper method) "POST" || String.eqb (upper method) "GET".

(** The request [make_request] hands to [requests] for a supported method. *)
Definition request_of (self : BaseAPIService) (endpoint method : string)
    (data files : value) (timeout : Z) : request :=
  let url := base_url self ++ "/" ++ endpoint in
  let headers :=
    if negb (truthy files) then get_headers self
    else [("Authorization", "Bearer " ++ api_key self)] in
  if String.eqb (upper method) "POST" then
    if truthy files then mkRequest POST url headers (Multipart data files) timeout
    else mkRequest POST url headers (Json data) timeout
  else mkRequest GET url headers (Params data) timeout.

(** The environment after one HTTP attempt that took [dt] seconds. *)
Definition after_send (e : env) (rq : request) (dt : Q) : env :=
  mkEnv (now e + dt) (mem_used e) (sent e ++ [rq]).

(** The parameters [generate_hd_image] validates, and for each of them the
    rule of the docstring, the message raised and the name the message
    starts with. *)
Inductive field : Type := Prompt | Width | Height | InferenceSteps | GuidanceScale.

Definition out_of_range (f : field) (prompt : string) (width height steps : Z)
    (guidance : Q) : Prop :=
  match f with
  | Prompt => strip prompt = ""
  | Width => width < 256 \/ 1024 < width \/ width mod 64 <> 0
  | Height => height < 256 \/ 1024 < height \/ height mod 64 <> 0
  | InferenceSteps => steps < 10 \/ 50 < steps
  | GuidanceScale => (guidance < 1)%Q \/ (20 < guidance)%Q
  end.

Definition validation_message (f : field) : string :=
  match f with
  | Prompt => "Prompt cannot be empty"
  | Width => "Width must be between 256-1024 and divisible by 64"
  | Height => "Height must be between 256-1024 and divisible by 64"
  | InferenceSteps => "Inference steps must be between 10-50"
  | GuidanceScale => "Guidance scale must be between 1.0-20.0"
  end.

Definition field_name (f : field) : string :=
  match f with
  | Prompt => "Prompt"
  | Width => "Width"
  | Height => "Height"
  | InferenceSteps => "Inference steps"
  | GuidanceScale => "Guidance scale"
  end.

(** A service object and three remote behaviours: a read timeout after sixty
    seconds, a refused connection, and a 503 answer. *)
Definition service0 : BaseAPIService := mkService "key" "https://engine.prod.bria-api.com".

Definition net_timeout : transport :=
  fun _ _ => (raise_ ReadTimeout "Read timed out. (read timeout=60)", 60%Q).

Definition net_refused : transport :=
  fun _ _ => (raise_ ConnectionError "Connection refused", 1%Q).

Definition net_503 : transport :=
  fun _ _ =>
    (Returns (mkResponse 503 "Service Unavailable"
                (raise_ RequestsJSONDecodeError "Expecting value: line 1 column 1 (char 0)")),
     1%Q).

(** The history entry a call of [log_generation_attempt] writes. *)
Definition entry_of (a : attempt) : history_entry :=
  mkHistory (now (at_env a)) (at_operation a) (at_success a) (at_duration a) (at_error a).

(** The cut [log_generation_attempt] applies to the history. *)
Definition trim_history (h : list history_entry) : list history_entry :=
  if (100 <? List.length h)%nat then last_n 100 h else h.

(** The number of successful attempts. *)
Definition successes (l : list attempt) : Z :=
  Z.of_nat (List.length (filter at_success l)).

(** A session whose history is full: a hundred timed successes. *)
Definition attempt0 : attempt :=
  mkAttempt env0 "HD Image Generation" true (Some 2%Q) None.

Definition full_world : world := run_attempts (repeat attempt0 100) world0.

(** The words [safe_api_call] puts before the operation name in the message
    it shows. *)
Definition error_banner (ex : exc) : string :=
  if isinstance ex RequestException then "Network error in "
  else if isinstance ex ValueError then "Invalid input for "
  else "Unexpected error in ".

(** The session with one more message shown to the user. *)
Definition shown (msg : string) (s : session_state) : session_state :=
  mkSession (performance_data s) (api_calls s) (generation_history s) (metrics s)
            (shown_errors s ++ [msg]).

(** Two more remote behaviours: a 200 answer whose body is an HTML page, and
    a 200 answer that carries the bytes [b] as a base64 image. *)
Definition net_html : transport :=
  fun _ _ =>
    (Returns (mkResponse 200 "<html>Bad gateway</html>"
                (raise_ RequestsJSONDecodeError "Expecting value: line 1 column 1 (char 0)")),
     1%Q).

Definition image_body (b : list byte) : value :=
  VDict [("result", VDict [("images", VList [VStr (b64encode b)])])].

Definition net_image (b : list byte) : transport :=
  fun _ _ => (Returns (mkResponse 200 "" (Returns (image_body b))), 2%Q).

(** The request [generate_hd_image] sends for parameters that pass. *)
Definition hd_request (self : BaseAPIService) (prompt : string)
    (width height steps : Z) (guidance : Q) : request :=
  mkRequest POST (base_url self ++ "/" ++ "v1/text-to-image") (get_headers self)
    (Json (VDict [("prompt", VStr (strip prompt));
                  ("width", VInt width);
                  ("height", VInt height);
                  ("num_inference_steps", VInt steps);
                  ("guidance_scale", VFloat guidance)]))
    60.

(** The label [safe_api_call] gives an exception, by the first [except]
    clause that matches its class. *)
Definition error_label (ex : exc) : string :=
  if isinstance ex RequestException then "Network error: "
  else if isinstance ex ValueError then "Invalid input: "
  else "Unexpected error: ".

(** [n] calls of [PerformanceMonitor.log_api_call] in a row. *)
Fixpoint log_api_calls (n : nat) (w : world) : world :=
  match n with
  | O => w
  | S k => snd (log_api_call "hd_generation" 1 "success" None (log_api_calls k w))
  end.

(** ** Base64: decoding inverts encoding *)

Section Base64Facts.

Local Open Scope N_scope.

Lemma nth_alphabet (P : ascii -> Prop) :
  Forall P alphabet -> P "A"%char -> forall n, P (b2a n).
Proof.
  intros Hall Hdef n. unfold b2a.
  destruct (nth_in_or_default (N.to_nat n) alphabet "A"%char) as [Hin | ->].
  - rewrite Forall_forall in Hall. now apply Hall.
  - exact Hdef.
Qed.

Lemma b2a_not_pad n : Ascii.eqb (b2a n) pad = false.
Proof.
  apply (nth_alphabet (fun c => Ascii.eqb c pad = false)); [| reflexivity].
  repeat constructor.
Qed.

Lemma b2a_is_ascii n : is_ascii (b2a n) = true.
Proof.
  apply (nth_alphabet (fun c => is_ascii c = true)); [| reflexivity].
  repeat constructor.
Qed.

Lemma a2b_b2a n : n < 64 -> a2b (b2a n) = Some n.
Proof.
  intros Hn.
  assert (Hall : forallb sextet_check (seq 0 64) = true) by (vm_compute; reflexivity).
  rewrite forallb_forall in Hall.
  specialize (Hall (N.to_nat n)).
  unfold sextet_check in Hall. rewrite N2Nat.id in Hall.
  assert (Hin : In (N.to_nat n) (seq 0 64)) by (apply in_seq; lia).
  specialize (Hall Hin).
  destruct (a2b (b2a n)) as [m |]; [| discriminate].
  apply N.eqb_eq in Hall. now subst.
Qed.

Lemma byte_of_to_N (x : byte) : byte_of_N (Byte.to_N x) = x.
Proof.
  unfold byte_of_N.
  pose proof (Byte.to_N_bounded x) as Hb.
  rewrite N.mod_small by lia.
  now rewrite Byte.of_to_N.
Qed.

(** One character of the alphabet, read in each of the four positions. *)
Lemma a2b_base64_data n rest quad_pos leftchar pads nout :
  n < 64 ->
  a2b_base64 (b2a n :: rest) quad_pos leftchar pads nout =
  match quad_pos with
  | 0 => a2b_base64 rest 1 n 0 nout
  | 1 => emit (leftchar * 4 + n / 16) (a2b_base64 rest 2 (n mod 16) 0 (nout + 1))
  | 2 => emit (leftchar * 16 + n / 4) (a2b_base64 rest 3 (n mod 4) 0 (nout + 1))
  | _ => emit (leftchar * 64 + n) (a2b_base64 rest 0 0 0 (nout + 1))
  end.
Proof.
  intros Hn. cbn [a2b_base64].
  now rewrite b2a_not_pad, (a2b_b2a n Hn).
Qed.

Lemma a2b_base64_pad rest quad_pos leftchar pads nout :
  a2b_base64 (pad :: rest) quad_pos leftchar pads nout =
  if (2 <=? quad_pos) && (4 <=? quad_pos + (pads + 1)) then Returns []
  else a2b_base64 rest quad_pos leftchar (if 2 <=? quad_pos then pads + 1 else pads) nout.
Proof. reflexivity. Qed.

Ltac sextet_arith :=
  repeat match goal with
         | x : byte |- _ =>
             let H := fresh "Hb" in
             pose proof (Byte.to_N_bounded x) as H;
             generalize dependent (Byte.to_N x); clear x; intros
         end;
  zify; Z.to_euclidean_division_equations; lia.

(** A full group of three bytes. *)
Lemma decode_group3 (x y z : byte) rest nout :
  a2b_base64 (b2a_base64 [x; y; z] ++ rest) 0 0 0 nout =
  emit (Byte.to_N x) (emit (Byte.to_N y) (emit (Byte.to_N z)
    (a2b_base64 rest 0 0 0 (nout + 1 + 1 + 1)))).
Proof.
  cbn [b2a_base64 app].
  rewrite a2b_base64_data by sextet_arith.
  rewrite a2b_base64_data by sextet_arith.
  rewrite a2b_base64_data by sextet_arith.
  rewrite a2b_base64_data by sextet_arith.
  cbv beta iota.
  replace (Byte.to_N x / 4 * 4 + (Byte.to_N x mod 4 * 16 + Byte.to_N y / 16) / 16)
    with (Byte.to_N x) by sextet_arith.
  replace ((Byte.to_N x mod 4 * 16 + Byte.to_N y / 16) mod 16 * 16
           + (Byte.to_N y mod 16 * 4 + Byte.to_N z / 64) / 4)
    with (Byte.to_N y) by sextet_arith.
  replace ((Byte.to_N y mod 16 * 4 + Byte.to_N z / 64) mod 4 * 64 + Byte.to_N z mod 64)
    with (Byte.to_N z) by sextet_arith.
  reflexivity.
Qed.

(** A last group of one byte, with its two pad characters. *)
Lemma decode_group1 (x : byte) nout :
  a2b_base64 (b2a_base64 [x]) 0 0 0 nout = Returns [x].
Proof.
  cbn [b2a_base64].
  rewrite a2b_base64_data by sextet_arith.
  rewrite a2b_base64_data by sextet_arith.
  cbv beta iota.
  rewrite !a2b_base64_pad. cbn.
  replace (Byte.to_N x / 4 * 4 + Byte.to_N x mod 4 * 16 / 16)
    with (Byte.to_N x) by sextet_arith.
  now rewrite byte_of_to_N.
Qed.

(** A last group of two bytes, with its pad character. *)
Lemma decode_group2 (x y : byte) nout :
  a2b_base64 (b2a_base64 [x; y]) 0 0 0 nout = Returns [x; y].
Proof.
  cbn [b2a_base64].
  rewrite a2b_base64_data by sextet_arith.
  rewrite a2b_base64_data by sextet_arith.
  rewrite a2b_base64_data by sextet_arith.
  cbv beta iota.
  rewrite a2b_base64_pad. cbn.
  replace (Byte.to_N x / 4 * 4 + (Byte.to_N x mod 4 * 16 + Byte.to_N y / 16) / 16)
    with (Byte.to_N x) by sextet_arith.
  replace ((Byte.to_N x mod 4 * 16 + Byte.to_N y / 16) mod 16 * 16
           + Byte.to_N y mod 16 * 4 / 4)
    with (Byte.to_N y) by sextet_arith.
  now rewrite !byte_of_to_N.
Qed.

(** Lists, three elements at a time. *)
Lemma list_ind3 {A} (P : list A -> Prop) :
  P [] -> (forall x, P [x]) -> (forall x y, P [x; y]) ->
  (forall x y z l, P l -> P (x :: y :: z :: l)) ->
  forall l, P l.
Proof.
  intros H0 H1 H2 H3 l.
  enough (P l /\ (forall x, P (x :: l)) /\ (forall x y, P (x :: y :: l))) by tauto.
  induction l as [| a l (IH0 & IH1 & IH2)]; [tauto |].
  repeat split; auto.
Qed.

Lemma a2b_base64_b2a_base64 (bs : list byte) :
  forall nout, a2b_base64 (b2a_base64 bs) 0 0 0 nout = Returns bs.
Proof.
  induction bs as [| x | x y | x y z l IH] using list_ind3; intros nout.
  - reflexivity.
  - apply decode_group1.
  - apply decode_group2.
  - change (b2a_base64 (x :: y :: z :: l)) with ((b2a_base64 [x; y; z] ++ b2a_base64 l)%list).
    rewrite decode_group3, IH. cbn [emit].
    now rewrite !byte_of_to_N.
Qed.

Lemma b2a_base64_is_ascii (bs : list byte) :
  forallb is_ascii (b2a_base64 bs) = true.
Proof.
  induction bs as [| x | x y | x y z l IH] using list_ind3;
    cbn [b2a_base64 forallb app]; rewrite ?b2a_is_ascii, ?IH; reflexivity.
Qed.

(** [b64decode(b64encode(bs).decode()) == bs]. *)
Lemma b64decode_b64encode (bs : list byte) :
  b64decode (b64encode bs) = Returns bs.
Proof.
  unfold b64decode, b64encode.
  rewrite list_ascii_of_string_of_list_ascii, b2a_base64_is_ascii.
  apply a2b_base64_b2a_base64.
Qed.

End Base64Facts.

Ltac run_log :=
  unfold log_generation_attempt, set_metrics, get_metrics, update_session, wall_clock,
    duration_truthy, truthy, bind, ret, throw, raise_, gets, modify;
  cbn -[Nat.ltb last_n Z.add Z.eqb Qeq_bool Qplus Qmult Qdiv inject_Z].

Ltac split_ifs_with keep :=
  repeat match goal with
         | |- context [if ?c then _ else _] => destruct c eqn:?; cbn -[keep append]
         | |- context [match ?c with Returns _ => _ | Raises _ => _ end] =>
             destruct c eqn:?; cbn -[keep append]
         end;
  try reflexivity.

Ltac split_ifs :=
  repeat match goal with
         | |- context [if ?c then _ else _] =>
             destruct c eqn:?; cbn -[Nat.ltb last_n Z.add Z.eqb Qeq_bool Qplus Qmult Qdiv inject_Z]
         end.

(** ** The call orchestrators, path by path *)

Section Orchestrator.

Variable service_name : string.
Variable api_function : M env value.
Variable w : world.

Lemma make_api_call_success v e' :
  api_function (w_env w) = (Returns v, e') ->
  make_api_call service_name api_function w =
  (Returns (VTuple [v; VNone]),
   mkWorld e' (logged service_name (w_env w) e' (w_session w)
                 (mkApiCall service_name (now e' - now (w_env w))%Q "success" None (now e')))).
Proof.
  intros H.
  unfold make_api_call, monitor_operation, log_api_call, try_except, try_finally,
    bind, wall_clock, virtual_memory_used_mb, update_session, lift_env, gets, modify, ret.
  cbn. rewrite H. reflexivity.
Qed.

Lemma make_api_call_caught ex e' :
  api_function (w_env w) = (Raises ex, e') ->
  isinstance ex Exception = true ->
  make_api_call service_name api_function w =
  (Returns (VTuple [VNone; VStr (exc_str ex)]),
   mkWorld e' (logged service_name (w_env w) e' (w_session w)
                 (mkApiCall service_name (now e' - now (w_env w))%Q "error"
                            (Some (exc_str ex)) (now e')))).
Proof.
  intros H Hex.
  unfold make_api_call, monitor_operation, log_api_call, try_except, try_finally,
    bind, wall_clock, virtual_memory_used_mb, update_session, lift_env, gets, modify, ret.
  cbn -[isinstance]. rewrite H. cbn -[isinstance]. rewrite Hex. reflexivity.
Qed.

Lemma make_api_call_propagates ex e' :
  api_function (w_env w) = (Raises ex, e') ->
  isinstance ex Exception = false ->
  make_api_call service_name api_function w =
  (Raises ex,
   mkWorld e'
     (mkSession
        (performance_data (w_session w) ++ [monitor_entry service_name (w_env w) e'])
        (api_calls (w_session w)) (generation_history (w_session w))
        (metrics (w_session w)) (shown_errors (w_session w)))).
Proof.
  intros H Hex.
  unfold make_api_call, monitor_operation, log_api_call, try_except, try_finally,
    bind, wall_clock, virtual_memory_used_mb, update_session, lift_env, gets, modify, ret.
  cbn -[isinstance]. rewrite H. cbn -[isinstance]. rewrite Hex. reflexivity.
Qed.

(** A class outside [Exception] is outside its subclasses too. *)
Lemma not_Exception_not_caught ex :
  isinstance ex Exception = false ->
  isinstance ex RequestException = false /\ isinstance ex ValueError = false.
Proof.
  destruct ex as [c m]. unfold isinstance. cbn [exc_cls].
  destruct c; intros H; try discriminate H; split; reflexivity.
Qed.

Ltac run_safe :=
  unfold safe_api_call, try_except, lift_env, st_error, bind, wall_clock, gets, ret;
  cbn -[isinstance log_generation_attempt Qminus].

Lemma log_generation_attempt_failure_returns op d err w' :
  fst (log_generation_attempt op false d err w') = Returns tt.
Proof.
  destruct w' as [e [pd ac gh [t sg avg ec] se]].
  run_log; split_ifs; reflexivity.
Qed.

Lemma safe_api_call_success v e' :
  api_function (w_env w) = (Returns v, e') ->
  0 <= successful_generations (metrics (w_session w)) ->
  fst (safe_api_call api_function service_name w) = Returns v.
Proof.
  intros H Hsg. destruct w as [e [pd ac gh [t sg avg ec] se]].
  cbn [w_env w_session metrics successful_generations] in *.
  run_safe. rewrite H.
  run_log. split_ifs; try reflexivity.
  all: match goal with Hz : (_ =? 0)%Z = true |- _ => apply Z.eqb_eq in Hz; lia end.
Qed.

Lemma safe_api_call_caught ex e' :
  api_function (w_env w) = (Raises ex, e') ->
  isinstance ex Exception = true ->
  fst (safe_api_call api_function service_name w) = Returns VNone.
Proof.
  intros H Hex.
  run_safe. rewrite H. cbn -[isinstance log_generation_attempt Qminus].
  destruct (isinstance ex RequestException);
    [| destruct (isinstance ex ValueError); [| rewrite Hex]];
    match goal with
    | |- context [log_generation_attempt ?op false ?d ?err ?w'] =>
        pose proof (log_generation_attempt_failure_returns op d err w') as Hl;
        destruct (log_generation_attempt op false d err w') as [r w'']
    end;
    cbn [fst] in Hl; subst r; reflexivity.
Qed.

Lemma safe_api_call_propagates ex e' :
  api_function (w_env w) = (Raises ex, e') ->
  isinstance ex Exception = false ->
  fst (safe_api_call api_function service_name w) = Raises ex.
Proof.
  intros H Hex.
  destruct (not_Exception_not_caught ex Hex) as [Hr Hv].
  run_safe. rewrite H. cbn -[isinstance log_generation_attempt Qminus].
  now rewrite Hr, Hv, Hex.
Qed.

End Orchestrator.

(** ** The generation history and the usage counters *)

Section GenerationLog.

(** The counters after one call, whichever way it ends. *)
Lemma log_generation_attempt_counters op ok d err w :
  let m := metrics (w_session w) in
  let m' := metrics (w_session (snd (log_generation_attempt op ok d err w))) in
  total_generations m' = total_generations m + 1 /\
  successful_generations m' = successful_generations m + (if ok then 1 else 0) /\
  error_count m' = error_count m + (if ok then 0 else 1).
Proof.
  destruct w as [e [pd ac gh [t sg avg ec] se]].
  destruct ok; [destruct d as [d |] |]; run_log; split_ifs; lia.
Qed.

(** The history after one call: the new entry is appended and the list is
    cut to its last hundred entries; a call that raises leaves it alone. *)
Lemma log_generation_attempt_history op ok d err w :
  let h := generation_history (w_session w) in
  let entry := mkHistory (now (w_env w)) op ok d err in
  let r := log_generation_attempt op ok d err w in
  let h' := generation_history (w_session (snd r)) in
  (fst r = Returns tt /\
   h' = if (100 <? List.length (h ++ [entry]))%nat then last_n 100 (h ++ [entry])
        else (h ++ [entry])%list)
  \/ (fst r <> Returns tt /\ h' = h).
Proof.
  destruct w as [e [pd ac gh [t sg avg ec] se]].
  destruct ok; [destruct d as [d |] |]; run_log; split_ifs;
    try (left; split; reflexivity);
    right; (split; [discriminate | reflexivity]).
Qed.

Lemma last_n_suffix {A} (n : nat) (l : list A) :
  exists dropped, l = (dropped ++ last_n n l)%list /\ List.length dropped = (List.length l - n)%nat.
Proof.
  exists (firstn (List.length l - n) l). unfold last_n. split.
  - symmetry. apply firstn_skipn.
  - rewrite length_firstn. lia.
Qed.

Lemma last_n_length {A} (n : nat) (l : list A) :
  List.length (last_n n l) = Nat.min n (List.length l).
Proof. unfold last_n. rewrite length_skipn. lia. Qed.

Lemma history_bound_preserved op ok d err w :
  (List.length (generation_history (w_session w)) <= 100)%nat ->
  (List.length (generation_history
     (w_session (snd (log_generation_attempt op ok d err w)))) <= 100)%nat.
Proof.
  intros Hb.
  destruct (log_generation_attempt_history op ok d err w) as [[_ ->] | [_ ->]]; [| exact Hb].
  destruct (100 <? _)%nat eqn:Hlt.
  - rewrite last_n_length. lia.
  - apply Nat.ltb_ge in Hlt. exact Hlt.
Qed.

Lemma run_attempts_history_bound l : forall w,
  (List.length (generation_history (w_session w)) <= 100)%nat ->
  (List.length (generation_history (w_session (run_attempts l w))) <= 100)%nat.
Proof.
  induction l as [| a l IH]; intros w Hb; [exact Hb |].
  cbn [run_attempts fold_left]. apply IH.
  unfold run_attempt. now apply history_bound_preserved.
Qed.

Lemma run_attempts_consistent l : forall w,
  counters_consistent (metrics (w_session w)) ->
  counters_consistent (metrics (w_session (run_attempts l w))).
Proof.
  induction l as [| a l IH]; intros w Hc; [exact Hc |].
  cbn [run_attempts fold_left]. apply IH.
  unfold run_attempt, counters_consistent in *.
  pose proof (log_generation_attempt_counters (at_operation a) (at_success a)
                (at_duration a) (at_error a) (mkWorld (at_env a) (w_session w))) as H.
  cbn [w_session] in H. destruct (at_success a); lia.
Qed.

Lemma log_api_calls_length n w :
  List.length (api_calls (w_session (log_api_calls n w))) =
  (List.length (api_calls (w_session w)) + n)%nat.
Proof.
  induction n as [| n IH]; cbn [log_api_calls]; [lia |].
  unfold log_api_call, update_session, wall_clock, bind, gets, modify.
  cbn [snd w_session api_calls]. rewrite length_app, IH. cbn [List.length]. lia.
Qed.

End GenerationLog.

(** C10. After every call of [log_generation_attempt] the counters satisfy
    [total_generations = successful_generations + error_count]: each call adds
    one to [total_generations] and one to exactly one of
    [successful_generations] and [error_count], so the equation holds after any
    sequence of calls that starts in the initial all-zero state. *)
Theorem C10_usage_counters_consistent :
  (forall op ok d err w,
     let m := metrics (w_session w) in
     let m' := metrics (w_session (snd (log_generation_attempt op ok d err w))) in
     total_generations m' = total_generations m + 1 /\
     ((successful_generations m' = successful_generations m + 1 /\
       error_count m' = error_count m) \/
      (successful_generations m' = successful_generations m /\
       error_count m' = error_count m + 1))) /\
  (forall l, counters_consistent (metrics (w_session (run_attempts l world0)))).
Proof.
  split.
  - intros op ok d err w.
    pose proof (log_generation_attempt_counters op ok d err w) as H.
    cbv zeta in *. destruct ok; lia.
  - intros l. apply run_attempts_consistent. reflexivity.
Qed.

(** The [api_calls] log admits no cap: [n] calls of [log_api_call] leave [n]
    entries, for every [n]. *)
Lemma C7_api_calls_unbounded :
  ~ exists cap : nat,
      forall n, (List.length (api_calls (w_session (log_api_calls n world0))) <= cap)%nat.
Proof.
  intros [cap Hcap]. specialize (Hcap (S cap)).
  rewrite log_api_calls_length in Hcap. cbn in Hcap. lia.
Qed.

(** C1 (amended). [make_api_call] returns [(v, None)] when the wrapped
    function returns [v], and [(None, str(e))] when it raises an exception [e]
    derived from [Exception]; the message is whatever text the exception
    carries.  An exception outside [Exception] propagates to the caller.  A
    returned pair never has both components populated.  [safe_api_call]
    returns the bare value [v] on success (in a session whose success counter
    is not negative) and [None] on every exception derived from [Exception],
    and lets the other exceptions propagate as well. *)
Theorem C1_orchestrator_result (service_name : string) (api_function : M env value)
    (w : world) :
  (forall v e', api_function (w_env w) = (Returns v, e') ->
     fst (make_api_call service_name api_function w) = Returns (VTuple [v; VNone]) /\
     (0 <= successful_generations (metrics (w_session w)) ->
      fst (safe_api_call api_function service_name w) = Returns v)) /\
  (forall ex e', api_function (w_env w) = (Raises ex, e') ->
     isinstance ex Exception = true ->
     fst (make_api_call service_name api_function w)
       = Returns (VTuple [VNone; VStr (exc_str ex)]) /\
     fst (safe_api_call api_function service_name w) = Returns VNone) /\
  (forall ex e', api_function (w_env w) = (Raises ex, e') ->
     isinstance ex Exception = false ->
     fst (make_api_call service_name api_function w) = Raises ex /\
     fst (safe_api_call api_function service_name w) = Raises ex) /\
  (forall a b, fst (make_api_call service_name api_function w) = Returns (VTuple [a; b]) ->
     a = VNone \/ b = VNone).
Proof.
  repeat split.
  - now rewrite (make_api_call_success service_name api_function w v e').
  - intros Hsg. now apply safe_api_call_success with (e' := e').
  - now rewrite (make_api_call_caught service_name api_function w ex e').
  - now apply safe_api_call_caught with (ex := ex) (e' := e').
  - now rewrite (make_api_call_propagates service_name api_function w ex e').
  - now apply safe_api_call_propagates with (e' := e').
  - intros a b Hab.
    destruct (api_function (w_env w)) as [[v | ex] e'] eqn:Hf.
    + rewrite (make_api_call_success service_name api_function w v e' Hf) in Hab.
      cbn [fst] in Hab. injection Hab as _ Hb. now right.
    + destruct (isinstance ex Exception) eqn:Hex.
      * rewrite (make_api_call_caught service_name api_function w ex e' Hf Hex) in Hab.
        cbn [fst] in Hab. injection Hab as Ha _. now left.
      * rewrite (make_api_call_propagates service_name api_function w ex e' Hf Hex) in Hab.
        discriminate Hab.
Qed.

Lemma C1_orchestrator_result_witness :
  fst (make_api_call "hd_generation" (ret (VStr "ok")) world0)
    = Returns (VTuple [VStr "ok"; VNone]) /\
  fst (make_api_call "hd_generation" (throw ValueError "Prompt cannot be empty") world0)
    = Returns (VTuple [VNone; VStr "Prompt cannot be empty"]).
Proof.
  split.
  - apply (proj1 (C1_orchestrator_result "hd_generation" (ret (VStr "ok")) world0)
             (VStr "ok") env0).
    reflexivity.
  - apply (proj1 (proj2 (C1_orchestrator_result "hd_generation"
                           (throw ValueError "Prompt cannot be empty") world0))
             (mkExc ValueError "Prompt cannot be empty") env0); reflexivity.
Defined.

(** The claim as stated fails twice: an exception raised without a message
    gives the pair [(None, "")], whose message is empty; and [SystemExit],
    which does not derive from [Exception], propagates to the caller. *)
Lemma C1_empty_message_and_propagation :
  ~ (exists m, m <> "" /\
       fst (make_api_call "hd_generation" (throw ValueError "") world0)
         = Returns (VTuple [VNone; VStr m])) /\
  ~ (exists r, fst (make_api_call "hd_generation" (throw SystemExit "0") world0)
         = Returns r).
Proof.
  split.
  - intros [m [Hm H]]. vm_compute in H. injection H as H. now subst m.
  - intros [r H]. vm_compute in H. discriminate H.
Qed.

(** C2 (amended). Every call of [make_api_call] in which the wrapped function
    returns, or raises an exception derived from [Exception], appends exactly
    one entry to [api_calls]: it records the service name, the outcome
    (["success"] or ["error"]), the elapsed time and the error message when
    there is one.  When the wrapped function raises an exception outside
    [Exception], the exception propagates and [api_calls] is left as it was. *)
Theorem C2_one_api_call_entry (service_name : string) (api_function : M env value)
    (w : world) :
  let log := api_calls (w_session w) in
  let log' := api_calls (w_session (snd (make_api_call service_name api_function w))) in
  (forall v e', api_function (w_env w) = (Returns v, e') ->
     log' = (log ++ [mkApiCall service_name (now e' - now (w_env w))%Q "success" None
                       (now e')])%list) /\
  (forall ex e', api_function (w_env w) = (Raises ex, e') ->
     isinstance ex Exception = true ->
     log' = (log ++ [mkApiCall service_name (now e' - now (w_env w))%Q "error"
                       (Some (exc_str ex)) (now e')])%list) /\
  (forall ex e', api_function (w_env w) = (Raises ex, e') ->
     isinstance ex Exception = false ->
     log' = log).
Proof.
  cbv zeta. repeat split.
  - intros v e' Hf. now rewrite (make_api_call_success service_name api_function w v e' Hf).
  - intros ex e' Hf Hex.
    now rewrite (make_api_call_caught service_name api_function w ex e' Hf Hex).
  - intros ex e' Hf Hex.
    now rewrite (make_api_call_propagates service_name api_function w ex e' Hf Hex).
Qed.

Lemma C2_one_api_call_entry_witness :
  api_calls (w_session (snd (make_api_call "hd_generation"
                               (throw ValueError "Prompt cannot be empty") world0)))
  = [mkApiCall "hd_generation" (0 - 0)%Q "error" (Some "Prompt cannot be empty") 0%Q].
Proof.
  apply (proj1 (proj2 (C2_one_api_call_entry "hd_generation"
                         (throw ValueError "Prompt cannot be empty") world0))
           (mkExc ValueError "Prompt cannot be empty") env0); reflexivity.
Defined.

(** A wrapped function that raises [SystemExit] leaves no entry in
    [api_calls]. *)
Lemma C2_no_entry_on_SystemExit :
  ~ exists entry,
      api_calls (w_session (snd (make_api_call "hd_generation"
                                   (throw SystemExit "0") world0)))
      = (api_calls (w_session world0) ++ [entry])%list.
Proof.
  intros [entry H]. vm_compute in H. discriminate H.
Qed.

(** ** The transport client *)

Section Transport.

Variable net : transport.
Variable self : BaseAPIService.
Variables endpoint method : string.
Variables data files : value.
Variable timeout : Z.
Variable e : env.

Hypothesis Hmethod : supported method = true.

Ltac run_request :=
  unfold make_request, request_of, try_except, requests_send, time_time, of_outcome,
    after_send, throw, bind, gets;
  cbn -[isinstance upper String.eqb truthy get_headers str_of_int Qminus Qplus append].

Ltac pick_method :=
  unfold supported in Hmethod;
  destruct (String.eqb (upper method) "POST") eqn:?;
  [| destruct (String.eqb (upper method) "GET") eqn:?; [| discriminate Hmethod]].

(** Exactly one request is sent, whatever the answer. *)
Lemma make_request_sent :
  sent (snd (make_request net self endpoint method data files timeout e)) =
  (sent e ++ [request_of self endpoint method data files timeout])%list.
Proof.
  run_request. pick_method; destruct (truthy files);
    cbn -[isinstance upper String.eqb truthy get_headers str_of_int Qminus Qplus append];
    match goal with
    | |- context [net ?h ?rq] => destruct (net h rq) as [[resp | ex] dt]
    end;
    cbn -[isinstance upper String.eqb truthy get_headers str_of_int Qminus Qplus append];
    split_ifs_with isinstance.
Qed.

Ltac run_answer Hnet :=
  revert Hnet; run_request; pick_method; destruct (truthy files);
    cbn -[isinstance upper String.eqb truthy get_headers str_of_int Qminus Qplus append];
    intros Hnet; rewrite Hnet;
    cbn -[isinstance upper String.eqb truthy get_headers str_of_int Qminus Qplus append].

(** Status 200: the outcome of [response.json()] is the outcome of the call
    when it is a value. *)
Lemma make_request_200 resp dt v :
  net (sent e) (request_of self endpoint method data files timeout) = (Returns resp, dt) ->
  status_code resp = 200 ->
  json resp = Returns v ->
  make_request net self endpoint method data files timeout e =
  (Returns v, after_send e (request_of self endpoint method data files timeout) dt).
Proof.
  intros Hnet Hst Hjs.
  run_answer Hnet; rewrite Hst, Hjs; reflexivity.
Qed.

(** Any other status: the error raised inside the [try] block is caught by
    the last [except] clause and raised again with its text kept. *)
Lemma make_request_not_200 resp dt :
  net (sent e) (request_of self endpoint method data files timeout) = (Returns resp, dt) ->
  status_code resp <> 200 ->
  make_request net self endpoint method data files timeout e =
  (Raises (mkExc RequestException
             ("Unexpected error for " ++ endpoint ++ ": "
                ++ ("API Error: " ++ str_of_int (status_code resp) ++ " - " ++ text resp))),
   after_send e (request_of self endpoint method data files timeout) dt).
Proof.
  intros Hnet Hst. apply Z.eqb_neq in Hst.
  run_answer Hnet; rewrite Hst; reflexivity.
Qed.

(** [requests.Timeout] and its subclasses. *)
Lemma make_request_timeout ex dt :
  net (sent e) (request_of self endpoint method data files timeout) = (Raises ex, dt) ->
  isinstance ex Timeout = true ->
  make_request net self endpoint method data files timeout e =
  (Raises (mkExc RequestException
             ("Request timeout after " ++ str_of_int timeout ++ "s for " ++ endpoint)),
   after_send e (request_of self endpoint method data files timeout) dt).
Proof.
  intros Hnet Hex.
  run_answer Hnet; rewrite Hex; reflexivity.
Qed.

End Transport.

(** C6 (amended). When [requests] raises [Timeout] for a transport call,
    [make_request] raises a [RequestException] (the class it also raises for
    connection failures and non-200 answers) whose message is
    ["Request timeout after <timeout>s for <endpoint>"]; [make_api_call]
    returns [(None, message)] and appends exactly one entry to [api_calls],
    with status ["error"] and that message; the elapsed time it records
    is at least the configured timeout whenever the transport call took at
    least that long. *)
Theorem C6_timeout_result (net : transport) (self : BaseAPIService)
    (endpoint method : string) (data files : value) (timeout : Z)
    (service_name : string) (w : world) (ex : exc) (dt : Q) :
  supported method = true ->
  net (sent (w_env w)) (request_of self endpoint method data files timeout)
    = (Raises ex, dt) ->
  isinstance ex Timeout = true ->
  (inject_Z timeout <= dt)%Q ->
  let msg := "Request timeout after " ++ str_of_int timeout ++ "s for " ++ endpoint in
  let call := make_request net self endpoint method data files timeout in
  let r := make_api_call service_name call w in
  fst (call (w_env w)) = Raises (mkExc RequestException msg) /\
  fst r = Returns (VTuple [VNone; VStr msg]) /\
  exists entry,
    api_calls (w_session (snd r)) = (api_calls (w_session w) ++ [entry])%list /\
    ac_service entry = service_name /\
    ac_status entry = "error" /\
    ac_error entry = Some msg /\
    (inject_Z timeout <= ac_duration entry)%Q.
Proof.
  intros Hm Hnet Hex Hdt msg call r.
  pose proof (make_request_timeout net self endpoint method data files timeout
                (w_env w) Hm ex dt Hnet Hex) as Hreq.
  fold call msg in Hreq.
  pose proof (make_api_call_caught service_name call w
                (mkExc RequestException msg) _ Hreq eq_refl) as Hcall.
  fold r in Hcall. rewrite Hreq, Hcall. cbn [fst snd w_session logged api_calls exc_str].
  split; [reflexivity | split; [reflexivity |]].
  eexists. split; [reflexivity |].
  cbn [ac_service ac_status ac_error ac_duration after_send now].
  repeat split. lra.
Qed.

Lemma C6_timeout_result_witness :
  fst (make_api_call "hd_generation"
         (make_request net_timeout service0 "v1/text-to-image" "POST" VNone VNone 60) world0)
  = Returns (VTuple [VNone; VStr "Request timeout after 60s for v1/text-to-image"]).
Proof.
  apply (C6_timeout_result net_timeout service0 "v1/text-to-image" "POST" VNone VNone 60
           "hd_generation" world0
           (mkExc ReadTimeout "Read timed out. (read timeout=60)") 60%Q).
  - reflexivity.
  - reflexivity.
  - reflexivity.
  - vm_compute. discriminate.
Defined.

(** A timeout is not reported in a category of its own: the exception
    [make_request] raises for it is not a [Timeout]; it has the class of the
    exceptions raised for a refused connection and for a 503 answer, and
    [safe_api_call] files it under "Network error". *)
Lemma C6_timeout_not_a_distinct_category :
  let call net := make_request net service0 "v1/text-to-image" "POST" VNone VNone 60 in
  ~ (exists et, fst (call net_timeout env0) = Raises et /\ isinstance et Timeout = true) /\
  (exists et ec en,
     fst (call net_timeout env0) = Raises et /\
     fst (call net_refused env0) = Raises ec /\
     fst (call net_503 env0) = Raises en /\
     exc_cls et = exc_cls ec /\ exc_cls et = exc_cls en) /\
  map he_error
    (generation_history (w_session (snd (safe_api_call (call net_timeout) "hd_generation"
                                           world0))))
  = [Some "Network error: Request timeout after 60s for v1/text-to-image"].
Proof.
  cbv zeta. split; [| split].
  - intros [et [H1 H2]]. vm_compute in H1. injection H1 as H1. subst et. discriminate H2.
  - do 3 eexists. repeat split; vm_compute; reflexivity.
  - vm_compute. reflexivity.
Qed.

(** ** The response normalizer and the base64 round trip *)

Section Normalizer.

Variable identify : pil.

Lemma process_response_images d r images :
  dict_get d "result" = Some (VDict r) ->
  dict_get r "images" = Some images ->
  process_response identify (VDict d) =
  obind (getitem_0 images) (fun image_data =>
    match image_data with
    | VStr s => obind (b64decode s) (fun image_bytes => Image_open identify image_bytes)
    | _ => raise_ ValueError "Unexpected image format in response"
    end).
Proof.
  intros Hd Hr. unfold process_response, contains, getitem_str, and_then, obind.
  rewrite Hd. cbn [obind]. rewrite Hr. reflexivity.
Qed.

Lemma process_response_no_result d :
  dict_get d "result" = None ->
  process_response identify (VDict d) = raise_ ValueError "Invalid response format from API".
Proof.
  intros Hd. unfold process_response, contains, and_then, obind.
  now rewrite Hd.
Qed.

Lemma process_response_no_images d r :
  dict_get d "result" = Some (VDict r) ->
  dict_get r "images" = None ->
  process_response identify (VDict d) = raise_ ValueError "Invalid response format from API".
Proof.
  intros Hd Hr. unfold process_response, contains, getitem_str, and_then, obind.
  rewrite Hd. now rewrite Hr.
Qed.

End Normalizer.

(** C3 (amended). Given the parsed body of this service's response: when
    [result.images] is a list whose first element is a string, the normalizer
    decodes it as base64 and opens the decoded bytes as an image (the image
    returned holds exactly the decoded bytes); when the first element is not a
    string it raises [ValueError] "Unexpected image format in response"; when
    the [result] key or its [images] key is absent (also for a body that
    carries only [result_url] or [result_urls]) it raises [ValueError]
    "Invalid response format from API". *)
Theorem C3_normalizer_shapes (identify : pil) (d : list (string * value)) :
  (forall r s rest,
     dict_get d "result" = Some (VDict r) ->
     dict_get r "images" = Some (VList (VStr s :: rest)) ->
     process_response identify (VDict d) = obind (b64decode s) (Image_open identify) /\
     (forall image_bytes,
        b64decode s = Returns image_bytes -> identify image_bytes = true ->
        process_response identify (VDict d) = Returns (VImage image_bytes))) /\
  (forall r x rest,
     dict_get d "result" = Some (VDict r) ->
     dict_get r "images" = Some (VList (x :: rest)) ->
     (forall s, x <> VStr s) ->
     process_response identify (VDict d)
       = raise_ ValueError "Unexpected image format in response") /\
  (dict_get d "result" = None ->
     process_response identify (VDict d)
       = raise_ ValueError "Invalid response format from API") /\
  (forall r,
     dict_get d "result" = Some (VDict r) -> dict_get r "images" = None ->
     process_response identify (VDict d)
       = raise_ ValueError "Invalid response format from API").
Proof.
  split; [| split; [| split]].
  - intros r s rest Hd Hr.
    rewrite (process_response_images identify d r _ Hd Hr). cbn [getitem_0 obind].
    split; [reflexivity |].
    intros image_bytes Hdec Hid.
    rewrite Hdec. cbn [obind]. unfold Image_open. now rewrite Hid.
  - intros r x rest Hd Hr Hx.
    rewrite (process_response_images identify d r _ Hd Hr). cbn [getitem_0 obind].
    destruct x; try reflexivity. now elim (Hx s).
  - apply process_response_no_result.
  - intros r. apply process_response_no_images.
Qed.

Lemma C3_normalizer_shapes_witness :
  process_response (fun _ => true)
    (VDict [("result", VDict [("images", VList [VStr "SGVsbG8="])])])
  = Returns (VImage [x48; x65; x6c; x6c; x6f]) /\
  process_response (fun _ => true) (VDict [("result", VDict [("images", VList [VInt 7])])])
  = raise_ ValueError "Unexpected image format in response" /\
  process_response (fun _ => true) (VDict [("result_urls", VList [VStr "https://cdn/img.png"])])
  = raise_ ValueError "Invalid response format from API".
Proof.
  split; [| split].
  - apply (proj2 (proj1 (C3_normalizer_shapes (fun _ => true)
                           [("result", VDict [("images", VList [VStr "SGVsbG8="])])])
                    [("images", VList [VStr "SGVsbG8="])] "SGVsbG8=" [] eq_refl eq_refl));
      reflexivity.
  - apply (proj1 (proj2 (C3_normalizer_shapes (fun _ => true)
                           [("result", VDict [("images", VList [VInt 7])])]))
             [("images", VList [VInt 7])] (VInt 7) [] eq_refl eq_refl).
    intros s. discriminate.
  - apply (proj1 (proj2 (proj2 (C3_normalizer_shapes (fun _ => true)
                                  [("result_urls", VList [VStr "https://cdn/img.png"])])))).
    reflexivity.
Defined.

(** A body that carries [result_url] is not returned as it is: nothing is
    returned, the normalizer raises. *)
Lemma C3_result_url_rejected :
  ~ exists v,
      process_response (fun _ => true)
        (VDict [("result_url", VStr "https://cdn.example.com/image.png")]) = Returns v.
Proof.
  intros [v H]. vm_compute in H. discriminate H.
Qed.

(** C9. Encoding an image byte sequence [b] to base64 and passing the string
    through the normalizer's string branch gives back the same bytes: the
    decoder returns exactly [b], and for bytes PIL recognises as an image the
    normalizer returns the image whose content is exactly [b]. *)
Theorem C9_base64_round_trip (identify : pil) (b : list byte)
    (d r : list (string * value)) (rest : list value) :
  b64decode (b64encode b) = Returns b /\
  (identify b = true ->
   dict_get d "result" = Some (VDict r) ->
   dict_get r "images" = Some (VList (VStr (b64encode b) :: rest)) ->
   process_response identify (VDict d) = Returns (VImage b)).
Proof.
  split; [apply b64decode_b64encode |].
  intros Hid Hd Hr.
  rewrite (process_response_images identify d r _ Hd Hr). cbn [getitem_0 obind].
  rewrite b64decode_b64encode. cbn [obind]. unfold Image_open. now rewrite Hid.
Qed.

Lemma C9_base64_round_trip_witness :
  process_response (fun _ => true) (image_body [x89; x50; x4e; x47; x0d; x0a; x1a; x0a])
  = Returns (VImage [x89; x50; x4e; x47; x0d; x0a; x1a; x0a]).
Proof.
  apply (proj2 (C9_base64_round_trip (fun _ => true)
                  [x89; x50; x4e; x47; x0d; x0a; x1a; x0a]
                  [("result", VDict [("images",
                      VList [VStr (b64encode [x89; x50; x4e; x47; x0d; x0a; x1a; x0a])])])]
                  [("images",
                      VList [VStr (b64encode [x89; x50; x4e; x47; x0d; x0a; x1a; x0a])])]
                  [])); reflexivity.
Defined.

(** ** Parameter validation *)

Section Validation.

Lemma strip_empty_iff prompt :
  negb (truthy (VStr prompt)) || Nat.eqb (String.length (strip prompt)) 0 = true
  <-> strip prompt = "".
Proof.
  cbn [truthy]. rewrite negb_involutive, orb_true_iff, String.eqb_eq, Nat.eqb_eq.
  split.
  - intros [-> | Hlen]; [reflexivity |].
    destruct (strip prompt); [reflexivity | discriminate Hlen].
  - intros ->. now right.
Qed.

Lemma dimension_iff (x : Z) :
  negb ((256 <=? x)%Z && (x <=? 1024)%Z) || negb (Z.eqb (x mod 64) 0) = true
  <-> x < 256 \/ 1024 < x \/ x mod 64 <> 0.
Proof.
  rewrite orb_true_iff, !negb_true_iff, andb_false_iff, !Z.leb_gt, Z.eqb_neq. tauto.
Qed.

Lemma steps_iff (x : Z) :
  negb ((10 <=? x)%Z && (x <=? 50)%Z) = true <-> x < 10 \/ 50 < x.
Proof.
  rewrite negb_true_iff, andb_false_iff, !Z.leb_gt. tauto.
Qed.

Lemma Qle_bool_false (x y : Q) : Qle_bool x y = false <-> (y < x)%Q.
Proof.
  split.
  - intros H. apply Qnot_le_lt. intros Hle. apply Qle_bool_iff in Hle. congruence.
  - intros H. destruct (Qle_bool x y) eqn:Hb; [| reflexivity].
    apply Qle_bool_iff in Hb. exfalso. eapply Qlt_not_le; eassumption.
Qed.

Lemma guidance_iff (g : Q) :
  negb (Qle_bool 1 g && Qle_bool g 20) = true <-> (g < 1)%Q \/ (20 < g)%Q.
Proof.
  rewrite negb_true_iff, andb_false_iff, !Qle_bool_false. tauto.
Qed.

(** The outcome of the validation block: the message of the first rule, in
    the order of the source, that the arguments break. *)
Lemma validate_parameters_rejects prompt width height steps guidance :
  (exists f, out_of_range f prompt width height steps guidance) ->
  exists f,
    out_of_range f prompt width height steps guidance /\
    validate_parameters prompt width height steps guidance
      = raise_ ValueError (validation_message f) /\
    (strip prompt <> "" -> width = 300 -> f = Width).
Proof.
  intros Hbad. unfold validate_parameters.
  destruct (negb (truthy (VStr prompt)) || _) eqn:Hp.
  { exists Prompt. apply strip_empty_iff in Hp.
    split; [exact Hp | split; [reflexivity | intros Hne; contradiction]]. }
  destruct (negb ((256 <=? width)%Z && _) || _) eqn:Hw.
  { exists Width. apply dimension_iff in Hw. now repeat split. }
  destruct (negb ((256 <=? height)%Z && _) || _) eqn:Hh.
  { exists Height. apply dimension_iff in Hh.
    split; [exact Hh | split; [reflexivity |]].
    intros _ ->. discriminate Hw. }
  destruct (negb ((10 <=? steps)%Z && _)) eqn:Hs.
  { exists InferenceSteps. apply steps_iff in Hs.
    split; [exact Hs | split; [reflexivity |]].
    intros _ ->. discriminate Hw. }
  destruct (negb (Qle_bool 1 guidance && _)) eqn:Hg.
  { exists GuidanceScale. apply guidance_iff in Hg.
    split; [exact Hg | split; [reflexivity |]].
    intros _ ->. discriminate Hw. }
  exfalso. destruct Hbad as [[] Hf]; cbn [out_of_range] in Hf.
  - apply strip_empty_iff in Hf. congruence.
  - apply dimension_iff in Hf. congruence.
  - apply dimension_iff in Hf. congruence.
  - apply steps_iff in Hf. congruence.
  - apply guidance_iff in Hf. congruence.
Qed.

Lemma str_in_iff s l : str_in s l = true <-> In s l.
Proof.
  unfold str_in. rewrite existsb_exists. split.
  - intros [x [Hin Heq]]. apply String.eqb_eq in Heq. now subst.
  - intros Hin. exists s. split; [exact Hin | apply String.eqb_refl].
Qed.

End Validation.

(** C5. Whenever the prompt is empty after trimming, or the width or the
    height lies outside 256-1024 or is not a multiple of 64, or the number of
    inference steps lies outside 10-50, or the guidance scale lies outside
    1.0-20.0, [generate_hd_image] raises [ValueError] with the message of an
    offending field, which starts with the name of that field, and leaves the
    environment as it found it: no request is sent.  With a prompt that is not
    blank, a width of 300 gives the message about the width. *)
Theorem C5_validation_before_network (net : transport) (identify : pil)
    (self : BaseAPIService) (prompt : string) (width height steps : Z) (guidance : Q)
    (e : env) :
  (exists f, out_of_range f prompt width height steps guidance) ->
  let r := generate_hd_image net identify self prompt width height steps guidance e in
  exists f,
    out_of_range f prompt width height steps guidance /\
    fst r = raise_ ValueError (validation_message f) /\
    String.prefix (field_name f) (validation_message f) = true /\
    snd r = e /\ sent (snd r) = sent e /\
    (strip prompt <> "" -> width = 300 -> f = Width).
Proof.
  intros Hbad r.
  destruct (validate_parameters_rejects prompt width height steps guidance Hbad)
    as [f [Hf [Hv Hw]]].
  exists f. subst r. unfold generate_hd_image, bind, of_outcome. rewrite Hv.
  cbn [raise_ fst snd].
  repeat split; try assumption. now destruct f.
Qed.

Lemma C5_validation_before_network_witness :
  exists f,
    out_of_range f "a red shoe on white background" 300 512 20 (75 # 10) /\
    fst (generate_hd_image net_503 (fun _ => true) service0
           "a red shoe on white background" 300 512 20 (75 # 10) env0)
      = raise_ ValueError (validation_message f) /\
    String.prefix (field_name f) (validation_message f) = true /\
    snd (generate_hd_image net_503 (fun _ => true) service0
           "a red shoe on white background" 300 512 20 (75 # 10) env0) = env0 /\
    sent (snd (generate_hd_image net_503 (fun _ => true) service0
                 "a red shoe on white background" 300 512 20 (75 # 10) env0)) = sent env0 /\
    (strip "a red shoe on white background" <> "" -> 300 = 300 -> f = Width).
Proof.
  apply (C5_validation_before_network net_503 (fun _ => true) service0
           "a red shoe on white background" 300 512 20 (75 # 10) env0).
  exists Width. cbn [out_of_range]. right. right. vm_compute. discriminate.
Defined.

(** C8. An uploaded file larger than 10 MiB, or whose MIME type is not one of
    image/jpeg, image/png and image/webp, fails validation: [validate_image]
    answers [False] and [validate_image_file] raises [ValueError].  A file
    within the cap and of an allowed type passes both. *)
Theorem C8_upload_validation (f : UploadedFile) :
  (10 * 1024 * 1024 < size f \/
   ~ In (type_ f) ["image/jpeg"; "image/png"; "image/webp"] ->
   fst (validate_image (Some f)) = false /\
   exists msg, validate_image_file (as_object f) = raise_ ValueError msg) /\
  (size f <= 10 * 1024 * 1024 ->
   In (type_ f) ["image/jpeg"; "image/png"; "image/webp"] ->
   validate_image (Some f) = (true, "Valid image") /\
   validate_image_file (as_object f) = Returns true).
Proof.
  unfold validate_image, validate_image_file, as_object.
  cbn [obj_truthy attr_size attr_type negb].
  change ["image/jpeg"; "image/png"; "image/webp"] with valid_types.
  destruct (10 * 1024 * 1024 <? size f)%Z eqn:Hsize.
  - apply Z.ltb_lt in Hsize. split.
    + intros _. split; [reflexivity | eexists; reflexivity].
    + intros Hle. lia.
  - apply Z.ltb_ge in Hsize.
    destruct (str_in (type_ f) valid_types) eqn:Hty; cbn [negb].
    + apply str_in_iff in Hty. split.
      * intros [Hbig | Hno]; [lia | contradiction].
      * intros _ _. split; reflexivity.
    + split.
      * intros _. split; [reflexivity | eexists; reflexivity].
      * intros _ Hin. apply str_in_iff in Hin. congruence.
Qed.

Lemma C8_upload_validation_witness :
  (fst (validate_image (Some (mkUpload "photo.gif" 2048 "image/gif"))) = false /\
   exists msg,
     validate_image_file (as_object (mkUpload "photo.gif" 2048 "image/gif"))
       = raise_ ValueError msg) /\
  (validate_image (Some (mkUpload "photo.png" 2048 "image/png")) = (true, "Valid image") /\
   validate_image_file (as_object (mkUpload "photo.png" 2048 "image/png")) = Returns true).
Proof.
  split.
  - apply (proj1 (C8_upload_validation (mkUpload "photo.gif" 2048 "image/gif"))).
    right. cbn. intros [H | [H | [H | []]]]; discriminate H.
  - apply (proj2 (C8_upload_validation (mkUpload "photo.png" 2048 "image/png"))).
    + cbn. lia.
    + cbn. right. left. reflexivity.
Defined.

(* ================================================================== *)
(** * Further properties of the embedded code *)
(* ================================================================== *)

(** ** The transport client: the other paths of [make_request] *)

Section TransportPaths.

Variable net : transport.
Variable self : BaseAPIService.
Variables endpoint method : string.
Variables data files : value.
Variable timeout : Z.
Variable e : env.

Ltac open_request :=
  unfold make_request, request_of, try_except, requests_send, time_time, of_outcome,
    after_send, throw, bind, gets;
  cbn -[isinstance upper String.eqb truthy get_headers str_of_int Qminus Qplus append].

Ltac step_request :=
  cbn -[isinstance upper String.eqb truthy get_headers str_of_int Qminus Qplus append].

(** The outcome of [make_request] when [requests] raises [ex], by the first
    [except] clause that matches. *)
Lemma make_request_transport_error ex dt :
  supported method = true ->
  net (sent e) (request_of self endpoint method data files timeout) = (Raises ex, dt) ->
  make_request net self endpoint method data files timeout e =
  ((if isinstance ex Timeout then
      raise_ RequestException
        ("Request timeout after " ++ str_of_int timeout ++ "s for " ++ endpoint)
    else if isinstance ex ConnectionError then
      raise_ RequestException ("Connection error for " ++ endpoint)
    else if isinstance ex Exception then
      raise_ RequestException ("Unexpected error for " ++ endpoint ++ ": " ++ exc_str ex)
    else Raises ex),
   after_send e (request_of self endpoint method data files timeout) dt).
Proof.
  intros Hm Hnet. unfold supported in Hm. revert Hnet. open_request.
  destruct (String.eqb (upper method) "POST");
    [| destruct (String.eqb (upper method) "GET"); [| discriminate Hm]];
    destruct (truthy files); step_request; intros Hnet; rewrite Hnet; step_request;
    destruct (isinstance ex Timeout); try reflexivity;
    destruct (isinstance ex ConnectionError); try reflexivity;
    destruct (isinstance ex Exception); reflexivity.
Qed.

(** The outcome of [make_request] when the answer has status 200 and
    [response.json()] raises. *)
Lemma make_request_json_error resp dt ex :
  supported method = true ->
  net (sent e) (request_of self endpoint method data files timeout) = (Returns resp, dt) ->
  status_code resp = 200 ->
  json resp = Raises ex ->
  make_request net self endpoint method data files timeout e =
  ((if isinstance ex Timeout then
      raise_ RequestException
        ("Request timeout after " ++ str_of_int timeout ++ "s for " ++ endpoint)
    else if isinstance ex ConnectionError then
      raise_ RequestException ("Connection error for " ++ endpoint)
    else if isinstance ex Exception then
      raise_ RequestException ("Unexpected error for " ++ endpoint ++ ": " ++ exc_str ex)
    else Raises ex),
   after_send e (request_of self endpoint method data files timeout) dt).
Proof.
  intros Hm Hnet Hst Hjs. unfold supported in Hm. revert Hnet. open_request.
  destruct (String.eqb (upper method) "POST");
    [| destruct (String.eqb (upper method) "GET"); [| discriminate Hm]];
    destruct (truthy files); step_request; intros Hnet; rewrite Hnet; step_request;
    rewrite Hst, Hjs; step_request;
    destruct (isinstance ex Timeout); try reflexivity;
    destruct (isinstance ex ConnectionError); try reflexivity;
    destruct (isinstance ex Exception); reflexivity.
Qed.

Lemma make_request_unsupported :
  supported method = false ->
  make_request net self endpoint method data files timeout e =
  (raise_ RequestException
     ("Unexpected error for " ++ endpoint ++ ": " ++ ("Unsupported HTTP method: " ++ method)),
   e).
Proof.
  intros Hm. unfold supported in Hm. apply orb_false_iff in Hm. destruct Hm as [Hp Hg].
  open_request. rewrite Hp, Hg. reflexivity.
Qed.

End TransportPaths.

(** C4 (amended). For a supported method, [make_request] performs exactly one
    HTTP attempt, whatever the answer.  On status 200 it returns the parsed
    JSON body when the body decodes as JSON; when the body does not decode,
    the decoding error is caught and a [RequestException] is raised instead
    ("Unexpected error for <endpoint>: <text>" for a decoding error).  On any
    other status it raises an error whose message carries the status code and
    the body text. *)
Theorem C4_make_request_outcome (net : transport) (self : BaseAPIService)
    (endpoint method : string) (data files : value) (timeout : Z) (e : env) :
  supported method = true ->
  let rq := request_of self endpoint method data files timeout in
  let r := make_request net self endpoint method data files timeout e in
  sent (snd r) = (sent e ++ [rq])%list /\
  (forall resp dt v,
     net (sent e) rq = (Returns resp, dt) -> status_code resp = 200 ->
     json resp = Returns v ->
     fst r = Returns v) /\
  (forall resp dt ex,
     net (sent e) rq = (Returns resp, dt) -> status_code resp = 200 ->
     json resp = Raises ex -> isinstance ex Exception = true ->
     (exists msg, fst r = raise_ RequestException msg) /\
     (isinstance ex Timeout = false -> isinstance ex ConnectionError = false ->
      fst r = raise_ RequestException
                ("Unexpected error for " ++ endpoint ++ ": " ++ exc_str ex))) /\
  (forall resp dt,
     net (sent e) rq = (Returns resp, dt) -> status_code resp <> 200 ->
     fst r = Raises (mkExc RequestException
                       ("Unexpected error for " ++ endpoint ++ ": "
                          ++ ("API Error: " ++ str_of_int (status_code resp)
                                ++ " - " ++ text resp)))).
Proof.
  intros Hm rq r. subst rq r. split; [| split; [| split]].
  - now apply make_request_sent.
  - intros resp dt v Hnet Hst Hjs.
    now rewrite (make_request_200 net self endpoint method data files timeout e Hm
                   resp dt v Hnet Hst Hjs).
  - intros resp dt ex Hnet Hst Hjs Hex.
    rewrite (make_request_json_error net self endpoint method data files timeout e
               resp dt ex Hm Hnet Hst Hjs). cbn [fst].
    split.
    + destruct (isinstance ex Timeout); [eexists; reflexivity |].
      destruct (isinstance ex ConnectionError); [eexists; reflexivity |].
      rewrite Hex. eexists; reflexivity.
    + intros -> ->. now rewrite Hex.
  - intros resp dt Hnet Hst.
    now rewrite (make_request_not_200 net self endpoint method data files timeout e Hm
                   resp dt Hnet Hst).
Qed.

Lemma C4_make_request_outcome_witness :
  (sent (snd (make_request (net_image [x89; x50; x4e; x47]) service0 "v1/text-to-image"
                "POST" VNone VNone 60 env0))
   = [request_of service0 "v1/text-to-image" "POST" VNone VNone 60] /\
   fst (make_request (net_image [x89; x50; x4e; x47]) service0 "v1/text-to-image"
          "POST" VNone VNone 60 env0)
   = Returns (image_body [x89; x50; x4e; x47])) /\
  fst (make_request net_html service0 "v1/text-to-image" "POST" VNone VNone 60 env0)
  = raise_ RequestException
      "Unexpected error for v1/text-to-image: Expecting value: line 1 column 1 (char 0)" /\
  fst (make_request net_503 service0 "v1/text-to-image" "POST" VNone VNone 60 env0)
  = Raises (mkExc RequestException
      "Unexpected error for v1/text-to-image: API Error: 503 - Service Unavailable").
Proof.
  split; [| split].
  - pose proof (C4_make_request_outcome (net_image [x89; x50; x4e; x47]) service0
                  "v1/text-to-image" "POST" VNone VNone 60 env0 eq_refl)
      as [Hsent [Hok _]].
    split; [exact Hsent |].
    apply (Hok (mkResponse 200 "" (Returns (image_body [x89; x50; x4e; x47]))) 2%Q);
      reflexivity.
  - pose proof (C4_make_request_outcome net_html service0 "v1/text-to-image" "POST"
                  VNone VNone 60 env0 eq_refl) as [_ [_ [Hjson _]]].
    apply (Hjson (mkResponse 200 "<html>Bad gateway</html>"
                    (raise_ RequestsJSONDecodeError
                       "Expecting value: line 1 column 1 (char 0)")) 1%Q
             (mkExc RequestsJSONDecodeError "Expecting value: line 1 column 1 (char 0)"));
      reflexivity.
  - pose proof (C4_make_request_outcome net_503 service0 "v1/text-to-image" "POST"
                  VNone VNone 60 env0 eq_refl) as [_ [_ [_ Hbad]]].
    apply (Hbad (mkResponse 503 "Service Unavailable"
                   (raise_ RequestsJSONDecodeError
                      "Expecting value: line 1 column 1 (char 0)")) 1%Q);
      [reflexivity | discriminate].
Defined.

(** A 200 answer does not always give the parsed body: when the body is an
    HTML page, nothing is returned and [make_request] raises. *)
Lemma C4_status_200_without_json_raises :
  (exists resp dt,
     net_html (sent env0) (request_of service0 "v1/text-to-image" "POST" VNone VNone 60)
       = (Returns resp, dt) /\
     status_code resp = 200) /\
  ~ (exists v,
       fst (make_request net_html service0 "v1/text-to-image" "POST" VNone VNone 60 env0)
         = Returns v).
Proof.
  split.
  - do 2 eexists. split; reflexivity.
  - intros [v H]. vm_compute in H. discriminate H.
Qed.

(** X1. With a method other than POST and GET, [make_request] sends nothing:
    it raises a [RequestException] that names the method and leaves the
    environment as it was. *)
Theorem X1_unsupported_method_sends_nothing (net : transport) (self : BaseAPIService)
    (endpoint method : string) (data files : value) (timeout : Z) (e : env) :
  supported method = false ->
  make_request net self endpoint method data files timeout e =
  (raise_ RequestException
     ("Unexpected error for " ++ endpoint ++ ": " ++ ("Unsupported HTTP method: " ++ method)),
   e).
Proof. apply make_request_unsupported. Qed.

Lemma X1_unsupported_method_witness :
  make_request net_503 service0 "v1/text-to-image" "DELETE" VNone VNone 60 env0 =
  (raise_ RequestException
     "Unexpected error for v1/text-to-image: Unsupported HTTP method: DELETE",
   env0).
Proof.
  apply (X1_unsupported_method_sends_nothing net_503 service0 "v1/text-to-image" "DELETE"
           VNone VNone 60 env0).
  reflexivity.
Defined.

(** X2. When [requests] raises, [make_request] answers by the first [except]
    clause that matches: a connection error that is not a timeout gives
    "Connection error for <endpoint>"; a [ConnectTimeout], which is both a
    connection error and a timeout, gives the timeout message; any other
    exception derived from [Exception] gives "Unexpected error for <endpoint>:
    <text>"; an exception outside [Exception] propagates unchanged. *)
Theorem X2_transport_error_classification (net : transport) (self : BaseAPIService)
    (endpoint method : string) (data files : value) (timeout : Z) (e : env)
    (ex : exc) (dt : Q) :
  supported method = true ->
  net (sent e) (request_of self endpoint method data files timeout) = (Raises ex, dt) ->
  let r := fst (make_request net self endpoint method data files timeout e) in
  (isinstance ex Timeout = false -> isinstance ex ConnectionError = true ->
   r = raise_ RequestException ("Connection error for " ++ endpoint)) /\
  (exc_cls ex = ConnectTimeout ->
   r = raise_ RequestException
         ("Request timeout after " ++ str_of_int timeout ++ "s for " ++ endpoint)) /\
  (isinstance ex Timeout = false -> isinstance ex ConnectionError = false ->
   isinstance ex Exception = true ->
   r = raise_ RequestException ("Unexpected error for " ++ endpoint ++ ": " ++ exc_str ex)) /\
  (isinstance ex Exception = false -> r = Raises ex).
Proof.
  intros Hm Hnet r. subst r.
  rewrite (make_request_transport_error net self endpoint method data files timeout e
             ex dt Hm Hnet). cbn [fst].
  split; [| split; [| split]].
  - intros -> ->. reflexivity.
  - intros Hc. destruct ex as [c m]. cbn [exc_cls] in Hc. subst c. reflexivity.
  - intros -> -> ->. reflexivity.
  - intros Hex. destruct ex as [c m]. unfold isinstance in *. cbn [exc_cls] in *.
    destruct c; try discriminate Hex; reflexivity.
Qed.

Lemma X2_transport_error_classification_witness :
  fst (make_request net_refused service0 "v1/text-to-image" "POST" VNone VNone 60 env0)
  = raise_ RequestException "Connection error for v1/text-to-image".
Proof.
  apply (proj1 (X2_transport_error_classification net_refused service0 "v1/text-to-image"
                  "POST" VNone VNone 60 env0 (mkExc ConnectionError "Connection refused")
                  1%Q eq_refl eq_refl)); reflexivity.
Defined.

(** The class of what [make_request] raises. *)
Lemma make_request_error_class (net : transport) (self : BaseAPIService)
    (endpoint method : string) (data files : value) (timeout : Z) (e : env) :
  match fst (make_request net self endpoint method data files timeout e) with
  | Returns _ => True
  | Raises ex => exc_cls ex = RequestException \/ isinstance ex Exception = false
  end.
Proof.
  destruct (supported method) eqn:Hm.
  - destruct (net (sent e) (request_of self endpoint method data files timeout))
      as [[resp | ex] dt] eqn:Hnet.
    + destruct (Z.eq_dec (status_code resp) 200) as [Hst | Hst].
      * destruct (json resp) as [v | ex] eqn:Hjs.
        -- now rewrite (make_request_200 net self endpoint method data files timeout e Hm
                          resp dt v Hnet Hst Hjs).
        -- rewrite (make_request_json_error net self endpoint method data files timeout e
                      resp dt ex Hm Hnet Hst Hjs). cbn [fst].
           destruct (isinstance ex Timeout); [now left |].
           destruct (isinstance ex ConnectionError); [now left |].
           destruct (isinstance ex Exception) eqn:Hex; [now left | now right].
      * rewrite (make_request_not_200 net self endpoint method data files timeout e Hm
                   resp dt Hnet Hst). now left.
    + rewrite (make_request_transport_error net self endpoint method data files timeout e
                 ex dt Hm Hnet). cbn [fst].
      destruct (isinstance ex Timeout); [now left |].
      destruct (isinstance ex ConnectionError); [now left |].
      destruct (isinstance ex Exception) eqn:Hex; [now left | now right].
  - rewrite (make_request_unsupported net self endpoint method data files timeout e Hm).
    now left.
Qed.

(** X3. Whatever the method, the remote side and the body, an error that
    leaves [make_request] and derives from [Exception] is a plain
    [RequestException]: the call returns a value, raises an exception of class
    [RequestException], or lets through an exception that is outside
    [Exception]. *)
Theorem X3_make_request_raises_RequestException (net : transport) (self : BaseAPIService)
    (endpoint method : string) (data files : value) (timeout : Z) (e : env) :
  match fst (make_request net self endpoint method data files timeout e) with
  | Returns _ => True
  | Raises ex => exc_cls ex = RequestException \/ isinstance ex Exception = false
  end.
Proof. apply make_request_error_class. Qed.

(** X4. A 200 answer whose body is not JSON does not leak the decoding error:
    when [response.json()] raises an exception derived from [Exception] (and
    not from the timeout or connection classes), [make_request] raises a
    [RequestException] "Unexpected error for <endpoint>: <text>", after the one
    request it sent. *)
Theorem X4_undecodable_body (net : transport) (self : BaseAPIService)
    (endpoint method : string) (data files : value) (timeout : Z) (e : env)
    (resp : response) (dt : Q) (ex : exc) :
  supported method = true ->
  net (sent e) (request_of self endpoint method data files timeout) = (Returns resp, dt) ->
  status_code resp = 200 ->
  json resp = Raises ex ->
  isinstance ex Exception = true ->
  isinstance ex Timeout = false ->
  isinstance ex ConnectionError = false ->
  make_request net self endpoint method data files timeout e =
  (raise_ RequestException ("Unexpected error for " ++ endpoint ++ ": " ++ exc_str ex),
   after_send e (request_of self endpoint method data files timeout) dt).
Proof.
  intros Hm Hnet Hst Hjs Hex Ht Hc.
  rewrite (make_request_json_error net self endpoint method data files timeout e
             resp dt ex Hm Hnet Hst Hjs).
  now rewrite Ht, Hc, Hex.
Qed.

Lemma X4_undecodable_body_witness :
  make_request net_html service0 "v1/text-to-image" "POST" VNone VNone 60 env0 =
  (raise_ RequestException
     "Unexpected error for v1/text-to-image: Expecting value: line 1 column 1 (char 0)",
   after_send env0 (request_of service0 "v1/text-to-image" "POST" VNone VNone 60) 1%Q).
Proof.
  apply (X4_undecodable_body net_html service0 "v1/text-to-image" "POST" VNone VNone 60 env0
           (mkResponse 200 "<html>Bad gateway</html>"
              (raise_ RequestsJSONDecodeError "Expecting value: line 1 column 1 (char 0)"))
           1%Q (mkExc RequestsJSONDecodeError "Expecting value: line 1 column 1 (char 0)"));
    reflexivity.
Defined.

(** X5. The one request [make_request] sends goes to [<base_url>/<endpoint>]
    with the timeout it was given and the bearer token of the service; it
    declares a JSON content type exactly when there are no files to upload. *)
Theorem X5_request_shape (net : transport) (self : BaseAPIService)
    (endpoint method : string) (data files : value) (timeout : Z) (e : env) :
  supported method = true ->
  exists rq,
    sent (snd (make_request net self endpoint method data files timeout e))
      = (sent e ++ [rq])%list /\
    req_url rq = base_url self ++ "/" ++ endpoint /\
    req_timeout rq = timeout /\
    In ("Authorization", "Bearer " ++ api_key self) (req_headers rq) /\
    (In ("Content-Type", "application/json") (req_headers rq) <-> truthy files = false).
Proof.
  intros Hm. exists (request_of self endpoint method data files timeout).
  split; [now apply make_request_sent |].
  unfold request_of.
  destruct (String.eqb (upper method) "POST"); destruct (truthy files);
    cbn [req_url req_timeout req_headers negb get_headers];
    repeat split; try (now left); try (intros _; right; now left);
    try discriminate;
    intros [Hin | []]; discriminate Hin.
Qed.

Lemma X5_request_shape_witness :
  exists rq,
    sent (snd (make_request net_503 service0 "v1/erase" "post" VNone
                 (VDict [("file", VStr "image.png")]) 30 env0))
      = (sent env0 ++ [rq])%list /\
    req_url rq = base_url service0 ++ "/" ++ "v1/erase" /\
    req_timeout rq = 30 /\
    In ("Authorization", "Bearer " ++ api_key service0) (req_headers rq) /\
    (In ("Content-Type", "application/json") (req_headers rq)
     <-> truthy (VDict [("file", VStr "image.png")]) = false).
Proof.
  apply (X5_request_shape net_503 service0 "v1/erase" "post" VNone
           (VDict [("file", VStr "image.png")]) 30 env0).
  reflexivity.
Defined.

(** ** The HD image service, end to end *)

Section HDService.

Variable net : transport.
Variable identify : pil.
Variable self : BaseAPIService.
Variable prompt : string.
Variables width height steps : Z.
Variable guidance : Q.

Lemma validate_parameters_accepts :
  (forall f, ~ out_of_range f prompt width height steps guidance) ->
  validate_parameters prompt width height steps guidance = Returns tt.
Proof.
  intros Hok. unfold validate_parameters.
  destruct (negb (truthy (VStr prompt)) || _) eqn:Hp.
  { apply strip_empty_iff in Hp. elim (Hok Prompt Hp). }
  destruct (negb ((256 <=? width)%Z && _) || _) eqn:Hw.
  { apply dimension_iff in Hw. elim (Hok Width Hw). }
  destruct (negb ((256 <=? height)%Z && _) || _) eqn:Hh.
  { apply dimension_iff in Hh. elim (Hok Height Hh). }
  destruct (negb ((10 <=? steps)%Z && _)) eqn:Hs.
  { apply steps_iff in Hs. elim (Hok InferenceSteps Hs). }
  destruct (negb (Qle_bool 1 guidance && _)) eqn:Hg.
  { apply guidance_iff in Hg. elim (Hok GuidanceScale Hg). }
  reflexivity.
Qed.

Lemma hd_request_of :
  request_of self "v1/text-to-image" "POST"
    (request_data prompt width height steps guidance) VNone 60
  = hd_request self prompt width height steps guidance.
Proof. reflexivity. Qed.

(** With parameters that pass, the call is the transport call followed by
    the normalizer. *)
Lemma generate_hd_image_valid e :
  (forall f, ~ out_of_range f prompt width height steps guidance) ->
  generate_hd_image net identify self prompt width height steps guidance e =
  match make_request net self "v1/text-to-image" "POST"
          (request_data prompt width height steps guidance) VNone 60 e with
  | (Returns response_data, e') => (process_response identify response_data, e')
  | (Raises ex, e') => (Raises ex, e')
  end.
Proof.
  intros Hok. unfold generate_hd_image, bind, of_outcome.
  rewrite (validate_parameters_accepts Hok).
  destruct (make_request _ _ _ _ _ _ _ e) as [[v | ex] e']; reflexivity.
Qed.

End HDService.

(** X6. Parameters inside all the documented ranges are never rejected:
    [generate_hd_image] then sends exactly one request, a POST to
    [<base_url>/v1/text-to-image] with timeout 60 whose JSON body carries the
    prompt with its surrounding whitespace removed and the four numbers
    unchanged. *)
Theorem X6_valid_parameters_forwarded (net : transport) (identify : pil)
    (self : BaseAPIService) (prompt : string) (width height steps : Z) (guidance : Q)
    (e : env) :
  (forall f, ~ out_of_range f prompt width height steps guidance) ->
  validate_parameters prompt width height steps guidance = Returns tt /\
  sent (snd (generate_hd_image net identify self prompt width height steps guidance e))
  = (sent e ++ [hd_request self prompt width height steps guidance])%list.
Proof.
  intros Hok. split; [now apply validate_parameters_accepts |].
  rewrite (generate_hd_image_valid net identify self prompt width height steps guidance
             e Hok).
  pose proof (make_request_sent net self "v1/text-to-image" "POST"
                (request_data prompt width height steps guidance) VNone 60 e eq_refl)
    as Hsent.
  rewrite hd_request_of in Hsent.
  destruct (make_request _ _ _ _ _ _ _ e) as [[v | ex] e']; exact Hsent.
Qed.

Lemma X6_valid_parameters_forwarded_witness :
  validate_parameters "  a red shoe " 512 512 20 (75 # 10) = Returns tt /\
  sent (snd (generate_hd_image net_503 (fun _ => true) service0
               "  a red shoe " 512 512 20 (75 # 10) env0))
  = (sent env0 ++ [hd_request service0 "  a red shoe " 512 512 20 (75 # 10)])%list.
Proof.
  apply (X6_valid_parameters_forwarded net_503 (fun _ => true) service0
           "  a red shoe " 512 512 20 (75 # 10) env0).
  intros [] H; cbn [out_of_range] in H.
  - vm_compute in H. discriminate H.
  - vm_compute in H. intuition discriminate.
  - vm_compute in H. intuition discriminate.
  - lia.
  - vm_compute in H. intuition discriminate.
Defined.

(** X7. The whole success path: with parameters in range, a 200 answer whose
    body holds the base64 encoding of the bytes [b] under [result.images[0]],
    and bytes PIL recognises, [generate_hd_image] returns the image made of
    exactly [b] after one request, and [make_api_call] returns the pair
    [(image, None)]. *)
Theorem X7_image_delivered (net : transport) (identify : pil) (self : BaseAPIService)
    (prompt : string) (width height steps : Z) (guidance : Q) (service_name : string)
    (w : world) (resp : response) (dt : Q) (d r : list (string * value))
    (rest : list value) (b : list byte) :
  (forall f, ~ out_of_range f prompt width height steps guidance) ->
  net (sent (w_env w)) (hd_request self prompt width height steps guidance)
    = (Returns resp, dt) ->
  status_code resp = 200 ->
  json resp = Returns (VDict d) ->
  dict_get d "result" = Some (VDict r) ->
  dict_get r "images" = Some (VList (VStr (b64encode b) :: rest)) ->
  identify b = true ->
  let call := generate_hd_image net identify self prompt width height steps guidance in
  call (w_env w)
    = (Returns (VImage b),
       after_send (w_env w) (hd_request self prompt width height steps guidance) dt) /\
  fst (make_api_call service_name call w) = Returns (VTuple [VImage b; VNone]).
Proof.
  intros Hok Hnet Hst Hjs Hd Hr Hid call.
  assert (Hcall : call (w_env w)
                  = (Returns (VImage b),
                     after_send (w_env w)
                       (hd_request self prompt width height steps guidance) dt)).
  { subst call.
    rewrite (generate_hd_image_valid net identify self prompt width height steps guidance
               (w_env w) Hok).
    rewrite <- hd_request_of in Hnet |- *.
    rewrite (make_request_200 net self "v1/text-to-image" "POST"
               (request_data prompt width height steps guidance) VNone 60 (w_env w)
               eq_refl resp dt (VDict d) Hnet Hst Hjs).
    rewrite (process_response_images identify d r _ Hd Hr). cbn [getitem_0 obind].
    rewrite b64decode_b64encode. cbn [obind]. unfold Image_open. now rewrite Hid. }
  split; [exact Hcall |].
  now rewrite (make_api_call_success service_name call w (VImage b) _ Hcall).
Qed.

Lemma X7_image_delivered_witness :
  fst (make_api_call "hd_image_generation"
         (generate_hd_image (net_image [x89; x50; x4e; x47]) (fun _ => true) service0
            "a red shoe on white background" 512 512 20 (75 # 10))
         world0)
  = Returns (VTuple [VImage [x89; x50; x4e; x47]; VNone]).
Proof.
  apply (X7_image_delivered (net_image [x89; x50; x4e; x47]) (fun _ => true) service0
           "a red shoe on white background" 512 512 20 (75 # 10) "hd_image_generation"
           world0 (mkResponse 200 "" (Returns (image_body [x89; x50; x4e; x47]))) 2%Q
           [("result", VDict [("images", VList [VStr (b64encode [x89; x50; x4e; x47])])])]
           [("images", VList [VStr (b64encode [x89; x50; x4e; x47])])] []
           [x89; x50; x4e; x47]); try reflexivity.
  intros [] H; cbn [out_of_range] in H.
  - vm_compute in H. discriminate H.
  - vm_compute in H. intuition discriminate.
  - vm_compute in H. intuition discriminate.
  - lia.
  - vm_compute in H. intuition discriminate.
Defined.

(** X8. A rejected parameter reaches the caller of [make_api_call] as a
    failure pair: the result is [(None, message)] with the message of an
    offending field, exactly one entry with status "error" and that message is
    appended to [api_calls], and no request has been sent. *)
Theorem X8_validation_failure_reported (net : transport) (identify : pil)
    (self : BaseAPIService) (prompt : string) (width height steps : Z) (guidance : Q)
    (service_name : string) (w : world) :
  (exists f, out_of_range f prompt width height steps guidance) ->
  let r := make_api_call service_name
             (generate_hd_image net identify self prompt width height steps guidance) w in
  exists f,
    out_of_range f prompt width height steps guidance /\
    fst r = Returns (VTuple [VNone; VStr (validation_message f)]) /\
    api_calls (w_session (snd r))
      = (api_calls (w_session w)
           ++ [mkApiCall service_name (now (w_env w) - now (w_env w))%Q "error"
                 (Some (validation_message f)) (now (w_env w))])%list /\
    sent (w_env (snd r)) = sent (w_env w).
Proof.
  intros Hbad r.
  destruct (validate_parameters_rejects prompt width height steps guidance Hbad)
    as [f [Hf [Hv _]]].
  exists f. split; [exact Hf |].
  assert (Hcall : generate_hd_image net identify self prompt width height steps guidance
                    (w_env w)
                  = (Raises (mkExc ValueError (validation_message f)), w_env w)).
  { unfold generate_hd_image, bind, of_outcome. now rewrite Hv. }
  subst r.
  rewrite (make_api_call_caught service_name _ w _ _ Hcall eq_refl).
  repeat split.
Qed.

Lemma X8_validation_failure_reported_witness :
  exists f,
    out_of_range f "a red shoe" 300 512 20 (75 # 10) /\
    fst (make_api_call "hd_image_generation"
           (generate_hd_image net_503 (fun _ => true) service0 "a red shoe" 300 512 20
              (75 # 10)) world0)
      = Returns (VTuple [VNone; VStr (validation_message f)]) /\
    api_calls (w_session (snd (make_api_call "hd_image_generation"
           (generate_hd_image net_503 (fun _ => true) service0 "a red shoe" 300 512 20
              (75 # 10)) world0)))
      = (api_calls (w_session world0)
           ++ [mkApiCall "hd_image_generation" (now (w_env world0) - now (w_env world0))%Q
                 "error" (Some (validation_message f)) (now (w_env world0))])%list /\
    sent (w_env (snd (make_api_call "hd_image_generation"
           (generate_hd_image net_503 (fun _ => true) service0 "a red shoe" 300 512 20
              (75 # 10)) world0)))
      = sent (w_env world0).
Proof.
  apply (X8_validation_failure_reported net_503 (fun _ => true) service0 "a red shoe"
           300 512 20 (75 # 10) "hd_image_generation" world0).
  exists Width. cbn [out_of_range]. right. right. vm_compute. discriminate.
Defined.

(** ** The response normalizer: what it returns and how it fails *)

(** X9. Bodies the normalizer has no message for fail with other errors than
    its two [ValueError]s: an empty [images] list raises [IndexError], a null
    [result] raises [TypeError], a string that is not valid base64 raises the
    decoder's error, and decoded bytes PIL does not recognise raise
    [UnidentifiedImageError]. *)
Theorem X9_unhandled_payloads (identify : pil) (d r : list (string * value)) :
  (dict_get d "result" = Some (VDict r) -> dict_get r "images" = Some (VList []) ->
   process_response identify (VDict d) = raise_ IndexError "list index out of range") /\
  (dict_get d "result" = Some VNone ->
   exists msg, process_response identify (VDict d) = raise_ TypeError msg) /\
  (forall s rest ex,
     dict_get d "result" = Some (VDict r) ->
     dict_get r "images" = Some (VList (VStr s :: rest)) ->
     b64decode s = Raises ex ->
     process_response identify (VDict d) = Raises ex) /\
  (forall s rest image_bytes,
     dict_get d "result" = Some (VDict r) ->
     dict_get r "images" = Some (VList (VStr s :: rest)) ->
     b64decode s = Returns image_bytes -> identify image_bytes = false ->
     exists msg,
       process_response identify (VDict d) = raise_ UnidentifiedImageError msg).
Proof.
  split; [| split; [| split]].
  - intros Hd Hr. now rewrite (process_response_images identify d r _ Hd Hr).
  - intros Hd. unfold process_response, contains, getitem_str, and_then, obind.
    rewrite Hd. eexists. reflexivity.
  - intros s rest ex Hd Hr Hdec.
    rewrite (process_response_images identify d r _ Hd Hr). cbn [getitem_0 obind].
    now rewrite Hdec.
  - intros s rest image_bytes Hd Hr Hdec Hid.
    rewrite (process_response_images identify d r _ Hd Hr). cbn [getitem_0 obind].
    rewrite Hdec. cbn [obind]. unfold Image_open. rewrite Hid.
    eexists. reflexivity.
Qed.

Lemma X9_unhandled_payloads_witness :
  process_response (fun _ => true) (VDict [("result", VDict [("images", VList [])])])
  = raise_ IndexError "list index out of range" /\
  process_response (fun _ => true)
    (VDict [("result", VDict [("images", VList [VStr "SGVsbG8"])])])
  = raise_ binascii_Error "Incorrect padding".
Proof.
  split.
  - apply (proj1 (X9_unhandled_payloads (fun _ => true)
                    [("result", VDict [("images", VList [])])] [("images", VList [])]));
      reflexivity.
  - apply (proj1 (proj2 (proj2 (X9_unhandled_payloads (fun _ => true)
                    [("result", VDict [("images", VList [VStr "SGVsbG8"])])]
                    [("images", VList [VStr "SGVsbG8"])])))
             "SGVsbG8" [] (mkExc binascii_Error "Incorrect padding")); reflexivity.
Defined.

(** X10. The normalizer returns nothing but images: whenever it returns, for
    any body at all, the value is an image whose content is the base64
    decoding of a string and which PIL recognises. *)
Theorem X10_normalizer_returns_only_images (identify : pil) (response_data v : value) :
  process_response identify response_data = Returns v ->
  exists s image_bytes,
    v = VImage image_bytes /\
    b64decode s = Returns image_bytes /\
    identify image_bytes = true.
Proof.
  unfold process_response, obind, and_then, contains, getitem_str, getitem_0, Image_open,
    raise_.
  intros H.
  repeat match type of H with
         | context [match ?x with _ => _ end] => destruct x eqn:?; try discriminate H
         end.
  all: injection H as <-; eauto.
Qed.

Lemma X10_normalizer_returns_only_images_witness :
  exists s image_bytes,
    VImage [x48; x65; x6c; x6c; x6f] = VImage image_bytes /\
    b64decode s = Returns image_bytes /\
    (fun _ : list byte => true) image_bytes = true.
Proof.
  apply (X10_normalizer_returns_only_images (fun _ => true)
           (VDict [("result", VDict [("images", VList [VStr "SGVsbG8="])])])).
  reflexivity.
Defined.

(** ** The two file validators *)

(** X11. On an uploaded file the two validators agree: [validate_image]
    answers [True] exactly when [validate_image_file] returns [True], and
    answers [False] exactly when [validate_image_file] raises; a file that is
    both too large and of a wrong type is reported as too large by both; and
    [validate_image] answers [False] for [None]. *)
Theorem X11_validators_agree (f : UploadedFile) :
  (fst (validate_image (Some f)) = true <->
   validate_image_file (as_object f) = Returns true) /\
  (fst (validate_image (Some f)) = false <->
   validate_image_file (as_object f) = raise_ ValueError (snd (validate_image (Some f)))) /\
  (10 * 1024 * 1024 < size f ->
   snd (validate_image (Some f)) = "Image file too large (max 10MB)") /\
  validate_image None = (false, "No image file provided").
Proof.
  unfold validate_image, validate_image_file, as_object.
  cbn [obj_truthy attr_size attr_type negb].
  change ["image/jpeg"; "image/png"; "image/webp"] with valid_types.
  destruct (10 * 1024 * 1024 <? size f)%Z eqn:Hsize.
  - cbn [fst snd]. repeat split; try discriminate; try reflexivity.
  - apply Z.ltb_ge in Hsize.
    destruct (str_in (type_ f) valid_types); cbn [negb fst snd];
      repeat split; try discriminate; try reflexivity; intros; lia.
Qed.

(** X12. [validate_image_file] returns [False] only for a falsy argument, and
    then without looking at it; for anything truthy it returns [True] or
    raises, and an object that has neither a [size] nor a [type] attribute
    passes. *)
Theorem X12_validate_image_file_falsy (image_file : pyobject) :
  (validate_image_file image_file = Returns false <-> obj_truthy image_file = false) /\
  (obj_truthy image_file = true -> attr_size image_file = None ->
   attr_type image_file = None -> validate_image_file image_file = Returns true).
Proof.
  unfold validate_image_file. destruct image_file as [t sz ty].
  cbn [obj_truthy attr_size attr_type].
  destruct t; cbn [negb].
  - split.
    + split; [| discriminate].
      destruct sz as [n |]; [destruct (10 * 1024 * 1024 <? n)%Z |];
        try discriminate;
        (destruct ty as [m |]; [destruct (negb (str_in m valid_types)) |]); discriminate.
    + intros _ -> ->. reflexivity.
  - split; [split; reflexivity | discriminate].
Qed.

Lemma X12_validate_image_file_falsy_witness :
  validate_image_file (mkObject true None None) = Returns true.
Proof.
  apply (proj2 (X12_validate_image_file_falsy (mkObject true None None))); reflexivity.
Defined.

Lemma X11_validators_agree_witness :
  snd (validate_image (Some (mkUpload "scan.tiff" 20000000 "image/tiff")))
  = "Image file too large (max 10MB)".
Proof.
  apply (proj1 (proj2 (proj2 (X11_validators_agree
                                (mkUpload "scan.tiff" 20000000 "image/tiff"))))).
  cbn. lia.
Defined.

(** ** Monitoring and the orchestrators: what each call leaves behind *)

(** X13. [monitor_operation] is transparent and always records: the outcome
    of the monitored block, a value or an exception, is passed on unchanged,
    and exactly one entry (the operation name, the time and the memory the
    block took) is appended to [performance_data] in both cases; the other
    parts of the session stay as the block left them. *)
Theorem X13_monitor_operation_records (A : Type) (operation_name : string)
    (body : M world A) (w w1 : world) (r : outcome A) :
  body w = (r, w1) ->
  monitor_operation operation_name body w =
  (r,
   mkWorld (w_env w1)
     (mkSession
        (performance_data (w_session w1)
           ++ [mkPerf operation_name (now (w_env w1) - now (w_env w))%Q
                 (mem_used (w_env w1) / 1024 / 1024 - mem_used (w_env w) / 1024 / 1024)%Q
                 (now (w_env w1))])
        (api_calls (w_session w1)) (generation_history (w_session w1))
        (metrics (w_session w1)) (shown_errors (w_session w1)))).
Proof.
  intros Hbody.
  unfold monitor_operation, try_finally, bind, wall_clock, virtual_memory_used_mb,
    update_session, gets, modify, ret.
  cbn. rewrite Hbody. reflexivity.
Qed.

Lemma X13_monitor_operation_records_witness :
  fst (monitor_operation "API_hd" (throw ValueError "Prompt cannot be empty" : M world value)
         world0)
  = raise_ ValueError "Prompt cannot be empty".
Proof.
  rewrite (X13_monitor_operation_records value "API_hd"
             (throw ValueError "Prompt cannot be empty" : M world value) world0 world0
             (raise_ ValueError "Prompt cannot be empty") eq_refl).
  reflexivity.
Defined.

(** X14. Whatever the wrapped function does (return, raise, or raise
    something [make_api_call] does not catch), [make_api_call] appends exactly
    one entry named "API_<service>" to [performance_data], leaves the
    generation history, the usage counters and the shown messages alone, and
    leaves the environment as the wrapped function left it. *)
Theorem X14_make_api_call_footprint (service_name : string) (api_function : M env value)
    (w : world) :
  let e' := snd (api_function (w_env w)) in
  let w' := snd (make_api_call service_name api_function w) in
  w_env w' = e' /\
  performance_data (w_session w')
    = (performance_data (w_session w) ++ [monitor_entry service_name (w_env w) e'])%list /\
  generation_history (w_session w') = generation_history (w_session w) /\
  metrics (w_session w') = metrics (w_session w) /\
  shown_errors (w_session w') = shown_errors (w_session w).
Proof.
  cbv zeta.
  destruct (api_function (w_env w)) as [[v | ex] e'] eqn:Hf; cbn [snd].
  - rewrite (make_api_call_success service_name api_function w v e' Hf).
    repeat split.
  - destruct (isinstance ex Exception) eqn:Hex.
    + rewrite (make_api_call_caught service_name api_function w ex e' Hf Hex).
      repeat split.
    + rewrite (make_api_call_propagates service_name api_function w ex e' Hf Hex).
      repeat split.
Qed.

Section SafeCall.

Variable api_function : M env value.
Variable operation_name : string.
Variable w : world.

(** A failed attempt: the state it leaves. *)
Lemma log_generation_attempt_failure op d err w0 :
  log_generation_attempt op false d err w0 =
  (Returns tt,
   mkWorld (w_env w0)
     (mkSession (performance_data (w_session w0)) (api_calls (w_session w0))
        (trim_history (generation_history (w_session w0)
                         ++ [mkHistory (now (w_env w0)) op false d err]))
        (mkMetrics (total_generations (metrics (w_session w0)) + 1)
                   (successful_generations (metrics (w_session w0)))
                   (average_generation_time (metrics (w_session w0)))
                   (error_count (metrics (w_session w0)) + 1))
        (shown_errors (w_session w0)))).
Proof.
  destruct w0 as [e [pd ac gh [t sg avg ec] se]].
  unfold trim_history. run_log. split_ifs; reflexivity.
Qed.

(** A successful attempt in a session whose success counter is not negative
    returns. *)
Lemma log_generation_attempt_success_returns op d err w0 :
  0 <= successful_generations (metrics (w_session w0)) ->
  fst (log_generation_attempt op true d err w0) = Returns tt.
Proof.
  destruct w0 as [e [pd ac gh [t sg avg ec] se]].
  cbn [w_session metrics successful_generations]. intros Hsg.
  destruct d as [d |]; run_log; split_ifs; try reflexivity.
  all: match goal with Hz : (_ =? 0)%Z = true |- _ => apply Z.eqb_eq in Hz; lia end.
Qed.

(** What [log_generation_attempt] does not touch. *)
Lemma log_generation_attempt_frame op ok d err w0 :
  let w' := snd (log_generation_attempt op ok d err w0) in
  w_env w' = w_env w0 /\
  performance_data (w_session w') = performance_data (w_session w0) /\
  api_calls (w_session w') = api_calls (w_session w0) /\
  shown_errors (w_session w') = shown_errors (w_session w0).
Proof.
  destruct w0 as [e [pd ac gh [t sg avg ec] se]].
  destruct ok; [destruct d as [d |] |]; run_log; split_ifs; repeat split.
Qed.

Lemma safe_api_call_failure_state ex e' :
  api_function (w_env w) = (Raises ex, e') ->
  isinstance ex Exception = true ->
  safe_api_call api_function operation_name w =
  (Returns VNone,
   let w1 := snd (log_generation_attempt operation_name false
                    (Some (now e' - now (w_env w))%Q)
                    (Some (error_label ex ++ exc_str ex))
                    (mkWorld e' (w_session w))) in
   mkWorld (w_env w1)
     (shown (error_banner ex ++ operation_name ++ ": " ++ exc_str ex) (w_session w1))).
Proof.
  intros Hf Hex. rewrite log_generation_attempt_failure.
  unfold safe_api_call, try_except, lift_env, bind, wall_clock, gets, ret,
    error_label, error_banner.
  cbn -[isinstance log_generation_attempt Qminus append st_error]. rewrite Hf.
  cbn -[isinstance log_generation_attempt Qminus append st_error].
  destruct (isinstance ex RequestException);
    [| destruct (isinstance ex ValueError); [| rewrite Hex]];
    rewrite log_generation_attempt_failure; reflexivity.
Qed.

Lemma safe_api_call_success_state v e' :
  api_function (w_env w) = (Returns v, e') ->
  0 <= successful_generations (metrics (w_session w)) ->
  safe_api_call api_function operation_name w =
  (Returns v,
   snd (log_generation_attempt operation_name true (Some (now e' - now (w_env w))%Q) None
          (mkWorld e' (w_session w)))).
Proof.
  intros Hf Hsg.
  pose proof (log_generation_attempt_success_returns operation_name
                (Some (now e' - now (w_env w))%Q) None (mkWorld e' (w_session w)) Hsg)
    as Hret.
  unfold safe_api_call, try_except, lift_env, bind, wall_clock, gets, ret.
  cbn -[isinstance log_generation_attempt Qminus append]. rewrite Hf.
  cbn -[isinstance log_generation_attempt Qminus append].
  destruct (log_generation_attempt _ _ _ _ _) as [r w1].
  cbn [fst] in Hret. subst r. reflexivity.
Qed.

End SafeCall.

(** X15. When the wrapped function raises an exception derived from
    [Exception], [safe_api_call] returns [None], appends one failed entry to
    the generation history (operation, elapsed time, and the exception text
    after the label of the first matching class: "Network error: " for a
    [RequestException], "Invalid input: " for a [ValueError], "Unexpected
    error: " otherwise), shows exactly one message to the user, and counts
    the attempt once, as an error. *)
Theorem X15_safe_api_call_failure_logged (api_function : M env value)
    (operation_name : string) (w : world) (ex : exc) (e' : env) :
  api_function (w_env w) = (Raises ex, e') ->
  isinstance ex Exception = true ->
  let r := safe_api_call api_function operation_name w in
  let s := w_session w in
  let s' := w_session (snd r) in
  fst r = Returns VNone /\
  w_env (snd r) = e' /\
  generation_history s'
    = trim_history
        (generation_history s
           ++ [mkHistory (now e') operation_name false (Some (now e' - now (w_env w))%Q)
                 (Some (error_label ex ++ exc_str ex))]) /\
  shown_errors s'
    = (shown_errors s
         ++ [(error_banner ex ++ operation_name ++ ": " ++ exc_str ex)%string])%list /\
  total_generations (metrics s') = total_generations (metrics s) + 1 /\
  successful_generations (metrics s') = successful_generations (metrics s) /\
  error_count (metrics s') = error_count (metrics s) + 1.
Proof.
  intros Hf Hex r s s'. subst r s s'.
  rewrite (safe_api_call_failure_state api_function operation_name w ex e' Hf Hex).
  rewrite log_generation_attempt_failure. repeat split.
Qed.

Lemma X15_safe_api_call_failure_logged_witness :
  map he_error (generation_history (w_session
    (snd (safe_api_call (throw ValueError "Prompt cannot be empty") "HD Image Generation"
            world0))))
  = [Some "Invalid input: Prompt cannot be empty"] /\
  shown_errors (w_session
    (snd (safe_api_call (throw ValueError "Prompt cannot be empty") "HD Image Generation"
            world0)))
  = ["Invalid input for HD Image Generation: Prompt cannot be empty"].
Proof.
  pose proof (X15_safe_api_call_failure_logged (throw ValueError "Prompt cannot be empty")
                "HD Image Generation" world0
                (mkExc ValueError "Prompt cannot be empty") env0 eq_refl eq_refl)
    as [_ [_ [Hh [Hs _]]]].
  split.
  - rewrite Hh. reflexivity.
  - rewrite Hs. reflexivity.
Defined.

(** X16. When the wrapped function returns [v] in a session whose success
    counter is not negative, [safe_api_call] returns [v], appends one
    successful entry with the elapsed time and no error text to the
    generation history, shows no message, and counts the attempt once, as a
    success. *)
Theorem X16_safe_api_call_success_logged (api_function : M env value)
    (operation_name : string) (w : world) (v : value) (e' : env) :
  api_function (w_env w) = (Returns v, e') ->
  0 <= successful_generations (metrics (w_session w)) ->
  let r := safe_api_call api_function operation_name w in
  let s := w_session w in
  let s' := w_session (snd r) in
  fst r = Returns v /\
  w_env (snd r) = e' /\
  generation_history s'
    = trim_history
        (generation_history s
           ++ [mkHistory (now e') operation_name true (Some (now e' - now (w_env w))%Q)
                 None]) /\
  shown_errors s' = shown_errors s /\
  total_generations (metrics s') = total_generations (metrics s) + 1 /\
  successful_generations (metrics s') = successful_generations (metrics s) + 1 /\
  error_count (metrics s') = error_count (metrics s).
Proof.
  intros Hf Hsg r s s'. subst r s s'.
  rewrite (safe_api_call_success_state api_function operation_name w v e' Hf Hsg).
  cbn [fst snd].
  set (w1 := mkWorld e' (w_session w)).
  set (d := Some (now e' - now (w_env w))%Q).
  pose proof (log_generation_attempt_success_returns operation_name d None w1 Hsg) as Hret.
  pose proof (log_generation_attempt_frame operation_name true d None w1)
    as [He [_ [_ Hshown]]].
  pose proof (log_generation_attempt_counters operation_name true d None w1)
    as [Ht [Hs He']].
  destruct (log_generation_attempt_history operation_name true d None w1)
    as [[_ Hh] | [Hne _]]; [| contradiction].
  cbv zeta in *. cbn [w_session w_env w1] in *.
  repeat split; try assumption; try lia.
Qed.

Lemma X16_safe_api_call_success_logged_witness :
  fst (safe_api_call (ret (VStr "a red shoe, studio light")) "Prompt Enhancement" world0)
  = Returns (VStr "a red shoe, studio light").
Proof.
  apply (X16_safe_api_call_success_logged (ret (VStr "a red shoe, studio light"))
           "Prompt Enhancement" world0 (VStr "a red shoe, studio light") env0 eq_refl).
  cbn. lia.
Defined.



(** ** The generation history and the running average, over a whole session *)

Section SessionHistory.

Lemma log_generation_attempt_history_step op ok d err w0 :
  0 <= successful_generations (metrics (w_session w0)) ->
  generation_history (w_session (snd (log_generation_attempt op ok d err w0)))
  = trim_history (generation_history (w_session w0)
                    ++ [mkHistory (now (w_env w0)) op ok d err]).
Proof.
  intros Hsg. destruct ok.
  - pose proof (log_generation_attempt_success_returns op d err w0 Hsg) as Hret.
    destruct (log_generation_attempt_history op true d err w0) as [[_ Hh] | [Hne _]];
      [exact Hh | contradiction].
  - now rewrite log_generation_attempt_failure.
Qed.

Lemma last_n_all {A} (n : nat) (l : list A) :
  (List.length l <= n)%nat -> last_n n l = l.
Proof.
  intros Hle. unfold last_n. replace (List.length l - n)%nat with 0%nat by lia.
  reflexivity.
Qed.

(** Cutting after each entry keeps what cutting once at the end keeps. *)
Lemma trim_history_last_n (past : list history_entry) (x : history_entry) :
  trim_history (last_n 100 past ++ [x]) = last_n 100 (past ++ [x]).
Proof.
  unfold trim_history.
  destruct (Nat.le_gt_cases (List.length past) 99) as [Hshort | Hlong].
  - rewrite (last_n_all 100 past) by lia.
    replace (100 <? List.length (past ++ [x]))%nat with false
      by (symmetry; apply Nat.ltb_ge; rewrite length_app; cbn [List.length]; lia).
    symmetry. apply last_n_all. rewrite length_app. cbn [List.length]. lia.
  - assert (Hlen : List.length (last_n 100 past) = 100%nat)
      by (rewrite last_n_length; lia).
    replace (100 <? List.length (last_n 100 past ++ [x]))%nat with true
      by (symmetry; apply Nat.ltb_lt; rewrite length_app, Hlen; cbn [List.length]; lia).
    unfold last_n at 1. rewrite !length_app, Hlen. cbn [List.length].
    replace (100 + 1 - 100)%nat with 1%nat by lia.
    unfold last_n. rewrite length_app. cbn [List.length].
    rewrite !skipn_app, skipn_skipn, !length_skipn.
    replace (1 + (List.length past - 100))%nat with (List.length past + 1 - 100)%nat by lia.
    replace (1 - (List.length past - (List.length past - 100)))%nat with 0%nat by lia.
    replace (List.length past + 1 - 100 - List.length past)%nat with 0%nat by lia.
    reflexivity.
Qed.

Lemma run_attempts_history_exact l : forall w past,
  0 <= successful_generations (metrics (w_session w)) ->
  generation_history (w_session w) = last_n 100 past ->
  generation_history (w_session (run_attempts l w)) = last_n 100 (past ++ map entry_of l).
Proof.
  induction l as [| a l IH]; intros w past Hsg Hh.
  - cbn [run_attempts fold_left map]. now rewrite app_nil_r.
  - cbn [run_attempts fold_left map].
    replace (past ++ entry_of a :: map entry_of l)%list
      with ((past ++ [entry_of a]) ++ map entry_of l)%list
      by (now rewrite <- app_assoc).
    apply IH.
    + unfold run_attempt.
      pose proof (log_generation_attempt_counters (at_operation a) (at_success a)
                    (at_duration a) (at_error a) (mkWorld (at_env a) (w_session w))) as Hc.
      cbv zeta in Hc. cbn [w_session] in Hc. destruct (at_success a); lia.
    + unfold run_attempt.
      rewrite log_generation_attempt_history_step by exact Hsg.
      cbn [w_session w_env]. rewrite Hh. apply trim_history_last_n.
Qed.

End SessionHistory.

(** X18. In a session that starts empty, the generation history is at every
    moment exactly the last hundred attempts, in the order they were made:
    nothing is lost before the cap is reached, and no call of
    [log_generation_attempt] raises. *)
Theorem X18_history_is_last_hundred (l : list attempt) :
  generation_history (w_session (run_attempts l world0)) = last_n 100 (map entry_of l) /\
  (forall a, fst (log_generation_attempt (at_operation a) (at_success a) (at_duration a)
                    (at_error a)
                    (mkWorld (at_env a) (w_session (run_attempts l world0))))
             = Returns tt).
Proof.
  split.
  - apply (run_attempts_history_exact l world0 []); [cbn; lia | reflexivity].
  - intros a.
    assert (Hsg : 0 <= successful_generations
                         (metrics (w_session (run_attempts l world0)))).
    { assert (Hgen : forall l' w,
                0 <= successful_generations (metrics (w_session w)) ->
                0 <= successful_generations (metrics (w_session (run_attempts l' w)))).
      { induction l' as [| b l' IH]; intros w Hw; [exact Hw |].
        cbn [run_attempts fold_left]. apply IH. unfold run_attempt.
        pose proof (log_generation_attempt_counters (at_operation b) (at_success b)
                      (at_duration b) (at_error b) (mkWorld (at_env b) (w_session w)))
          as Hc.
        cbv zeta in Hc. cbn [w_session] in Hc. destruct (at_success b); lia. }
      apply Hgen. cbn. lia. }
    destruct (at_success a).
    + now apply log_generation_attempt_success_returns.
    + now rewrite log_generation_attempt_failure.
Qed.

Section Tally.

Lemma successes_cons (a : attempt) (l : list attempt) :
  successes (a :: l) = (if at_success a then 1 else 0) + successes l.
Proof.
  unfold successes. cbn [filter]. destruct (at_success a); cbn [List.length]; lia.
Qed.

Lemma run_attempts_tally l : forall w,
  let m0 := metrics (w_session w) in
  let m := metrics (w_session (run_attempts l w)) in
  total_generations m = total_generations m0 + Z.of_nat (List.length l) /\
  successful_generations m = successful_generations m0 + successes l /\
  error_count m = error_count m0 + (Z.of_nat (List.length l) - successes l).
Proof.
  induction l as [| a l IH]; intros w; cbv zeta.
  - unfold successes. cbn. lia.
  - cbn [run_attempts fold_left]. fold (run_attempts l (run_attempt w a)).
    specialize (IH (run_attempt w a)). cbv zeta in IH.
    rewrite successes_cons.
    pose proof (log_generation_attempt_counters (at_operation a) (at_success a)
                  (at_duration a) (at_error a) (mkWorld (at_env a) (w_session w))) as Hc.
    cbv zeta in Hc. cbn [w_session] in Hc.
    unfold run_attempt in IH at 2 4 6.
    cbn [List.length]. destruct (at_success a); lia.
Qed.

(** A success that carries no duration, or a duration of zero, leaves the
    average as it was. *)
Lemma log_generation_attempt_untimed op d err w0 :
  duration_truthy d = false ->
  average_generation_time
    (metrics (w_session (snd (log_generation_attempt op true d err w0))))
  = average_generation_time (metrics (w_session w0)).
Proof.
  destruct w0 as [e [pd ac gh [t sg avg ec] se]].
  destruct d as [d |]; unfold duration_truthy, truthy; intros Hd.
  - apply negb_false_iff in Hd. run_log. rewrite Hd.
    cbn -[Nat.ltb last_n Z.add Z.eqb Qeq_bool Qplus Qmult Qdiv inject_Z].
    split_ifs; reflexivity.
  - run_log. split_ifs; reflexivity.
Qed.

End Tally.

(** X19. The usage counters are exact tallies: in a session that starts
    empty, after any sequence of attempts [total_generations] is the number of
    attempts, [successful_generations] the number of successful ones and
    [error_count] the number of failed ones.  The stored average is not
    touched by a failed attempt, nor by a successful attempt that carries no
    duration or a duration of zero. *)
Theorem X19_attempt_tally :
  (forall l,
     let m := metrics (w_session (run_attempts l world0)) in
     total_generations m = Z.of_nat (List.length l) /\
     successful_generations m = successes l /\
     error_count m = Z.of_nat (List.length l) - successes l) /\
  (forall op ok d err w,
     ok = false \/ duration_truthy d = false ->
     average_generation_time
       (metrics (w_session (snd (log_generation_attempt op ok d err w))))
     = average_generation_time (metrics (w_session w))).
Proof.
  split.
  - intros l. pose proof (run_attempts_tally l world0) as H. cbv zeta in *.
    cbn [world0 w_session initial_session metrics total_generations
         successful_generations error_count] in H. lia.
  - intros op ok d err w [-> | Hd].
    + now rewrite log_generation_attempt_failure.
    + destruct ok.
      * now apply log_generation_attempt_untimed.
      * now rewrite log_generation_attempt_failure.
Qed.

Lemma X19_attempt_tally_witness :
  average_generation_time
    (metrics (w_session (snd (log_generation_attempt "HD Image Generation" true (Some 0%Q)
                                None full_world))))
  = average_generation_time (metrics (w_session full_world)) /\
  average_generation_time
    (metrics (w_session (snd (log_generation_attempt "HD Image Generation" false
                                (Some 9%Q) (Some "Network error: x") full_world))))
  = average_generation_time (metrics (w_session full_world)).
Proof.
  split.
  - apply (proj2 X19_attempt_tally "HD Image Generation" true (Some 0%Q) None full_world).
    right. reflexivity.
  - apply (proj2 X19_attempt_tally "HD Image Generation" false (Some 9%Q)
             (Some "Network error: x") full_world).
    left. reflexivity.
Defined.

(** ** The dashboard figures *)

Section DashboardFigures.

Lemma run_attempts_counters l : forall w,
  0 <= successful_generations (metrics (w_session w)) ->
  0 <= error_count (metrics (w_session w)) ->
  counters_consistent (metrics (w_session w)) ->
  let m := metrics (w_session (run_attempts l w)) in
  0 <= successful_generations m /\ 0 <= error_count m /\ counters_consistent m.
Proof.
  induction l as [| a l IH]; intros w Hs He Hc; cbv zeta; [now repeat split |].
  cbn [run_attempts fold_left]. apply IH; unfold run_attempt, counters_consistent in *;
    pose proof (log_generation_attempt_counters (at_operation a) (at_success a)
                  (at_duration a) (at_error a) (mkWorld (at_env a) (w_session w))) as H;
    cbv zeta in H; cbn [w_session] in H; destruct (at_success a); lia.
Qed.

Lemma success_rate_bounds (m : performance_metrics) :
  0 <= successful_generations m ->
  successful_generations m <= total_generations m ->
  (0 <= success_rate m)%Q /\ (success_rate m <= 100)%Q.
Proof.
  intros Hs Ht. unfold success_rate.
  assert (Hmax : 1 <= Z.max (total_generations m) 1) by lia.
  assert (Hle : successful_generations m <= Z.max (total_generations m) 1) by lia.
  destruct (Z.max (total_generations m) 1) as [| p | p]; try lia.
  unfold Qle, Qdiv, Qmult, Qinv, inject_Z. cbn [Qnum Qden].
  split; nia.
Qed.

Lemma larger_bounds (a x : Q) : (a <= larger a x)%Q /\ (x <= larger a x)%Q.
Proof.
  unfold larger. destruct (Qle_bool x a) eqn:Hb.
  - apply Qle_bool_iff in Hb. split; [apply Qle_refl | exact Hb].
  - split; [| apply Qle_refl].
    apply Qlt_le_weak. apply Qnot_le_lt. intros Hle.
    apply Qle_bool_iff in Hle. congruence.
Qed.

Lemma column_max_ge_first (rest : list Q) : forall first,
  (first <= column_max first rest)%Q.
Proof.
  unfold column_max.
  induction rest as [| x rest IH]; intros first; cbn [fold_left]; [apply Qle_refl |].
  eapply Qle_trans; [apply (proj1 (larger_bounds first x)) | apply IH].
Qed.

Lemma column_max_ge (rest : list Q) : forall first x,
  In x (first :: rest) -> (x <= column_max first rest)%Q.
Proof.
  induction rest as [| y rest IH]; intros first x [<- | Hin].
  - apply Qle_refl.
  - destruct Hin.
  - apply column_max_ge_first.
  - unfold column_max. cbn [fold_left]. fold (column_max (larger first y) rest).
    destruct Hin as [<- | Hin].
    + eapply Qle_trans; [apply (proj2 (larger_bounds first y)) | apply column_max_ge_first].
    + apply IH. now right.
Qed.

Lemma at_least_one_ge (x : Q) : (1 <= at_least_one x)%Q.
Proof.
  unfold at_least_one. destruct (Qle_bool x 1) eqn:Hb; [apply Qle_refl |].
  apply Qlt_le_weak. apply Qnot_le_lt. intros Hle.
  apply Qle_bool_iff in Hle. congruence.
Qed.

Lemma rate_per_minute_bounds (n : Z) (x : Q) :
  0 < n -> (0 < inject_Z n / at_least_one x)%Q /\ (inject_Z n / at_least_one x <= inject_Z n)%Q.
Proof.
  intros Hn. pose proof (at_least_one_ge x) as Hge.
  assert (Hpos : (0 < at_least_one x)%Q) by (eapply Qlt_le_trans; [| exact Hge]; reflexivity).
  assert (Hn' : (0 < inject_Z n)%Q) by (unfold Qlt, inject_Z; cbn; lia).
  split.
  - apply Qlt_shift_div_l; [exact Hpos |]. now rewrite Qmult_0_l.
  - apply Qle_shift_div_r; [exact Hpos |].
    rewrite <- (Qmult_1_r (inject_Z n)) at 1.
    apply Qmult_le_l; assumption.
Qed.

End DashboardFigures.

(** X20. The success rate the dashboard of app_cleaned.py shows is a
    percentage: in a session that starts empty it lies between 0 and 100
    after any sequence of attempts, and its denominator is never zero (with
    no attempt yet the rate is 0). *)
Theorem X20_success_rate_is_a_percentage (l : list attempt) :
  let m := metrics (w_session (run_attempts l world0)) in
  (0 <= success_rate m)%Q /\ (success_rate m <= 100)%Q /\
  (success_rate (metrics initial_session) == 0)%Q.
Proof.
  cbv zeta.
  destruct (run_attempts_counters l world0) as [Hs [He Hc]]; try (cbn; lia); try reflexivity.
  unfold counters_consistent in Hc.
  destruct (success_rate_bounds (metrics (w_session (run_attempts l world0)))) as [H0 H100];
    try lia.
  repeat split; try assumption.
Qed.

(** X21. [get_performance_summary] reads the session without changing it.
    With nothing monitored it returns the empty dictionary; otherwise
    [total_operations] is the number of entries, [max_duration] is at least
    the duration of every entry, and [operations_per_minute] is positive and
    never more than [total_operations], because the elapsed time is counted as
    at least one minute. *)
Theorem X21_performance_summary (w : world) :
  snd (get_performance_summary w) = w /\
  (performance_data (w_session w) = [] -> fst (get_performance_summary w) = Returns None) /\
  (performance_data (w_session w) <> [] ->
   exists s,
     fst (get_performance_summary w) = Returns (Some s) /\
     total_operations s = Z.of_nat (List.length (performance_data (w_session w))) /\
     (forall p, In p (performance_data (w_session w)) ->
                (pe_duration p <= max_duration s)%Q) /\
     (0 < operations_per_minute s)%Q /\
     (operations_per_minute s <= inject_Z (total_operations s))%Q).
Proof.
  unfold get_performance_summary, bind, gets, wall_clock, ret.
  destruct (performance_data (w_session w)) as [| first rest] eqn:Hdata;
    cbn [fst snd].
  - repeat split. intros H. now elim H.
  - split; [reflexivity |]. split; [discriminate |]. intros _.
    eexists. split; [reflexivity |].
    cbn [total_operations max_duration operations_per_minute].
    split; [reflexivity |]. split.
    + intros p Hin. apply column_max_ge.
      change (pe_duration first :: map pe_duration rest)
        with (map pe_duration (first :: rest)).
      now apply in_map.
    + apply rate_per_minute_bounds. cbn [List.length]. lia.
Qed.

Lemma X21_performance_summary_witness :
  fst (get_performance_summary world0) = Returns None /\
  exists s,
    fst (get_performance_summary
           (snd (make_api_call "hd_generation" (ret VNone) world0))) = Returns (Some s) /\
    total_operations s = 1.
Proof.
  split.
  - apply (proj1 (proj2 (X21_performance_summary world0))). reflexivity.
  - destruct (proj2 (proj2 (X21_performance_summary
                (snd (make_api_call "hd_generation" (ret VNone) world0)))))
      as [s [Hs [Hn _]]].
    + vm_compute. discriminate.
    + exists s. split; [exact Hs | exact Hn].
Defined.

(** ** Downloading a generated image *)

(** X22. [download_image] sends exactly one GET with a timeout of 30 seconds
    and never raises an exception derived from [Exception]: an answer with a
    status below 400 (or from 600 on) gives the body bytes and shows nothing;
    a 4xx or 5xx answer, or an exception raised by [requests], gives [None]
    and shows exactly one message that starts with "Error downloading
    image: ". *)
Theorem X22_download_image (net : transport) (content : response -> list byte)
    (reason final_url : response -> string) (url : string) (w : world) :
  let rq := mkRequest GET url [] (Params VNone) 30 in
  let r := download_image net content reason final_url url w in
  let before := shown_errors (w_session w) in
  let after := shown_errors (w_session (snd r)) in
  sent (w_env (snd r)) = (sent (w_env w) ++ [rq])%list /\
  (forall resp dt,
     net (sent (w_env w)) rq = (Returns resp, dt) ->
     status_code resp < 400 \/ 600 <= status_code resp ->
     fst r = Returns (Some (content resp)) /\ after = before) /\
  (forall resp dt,
     net (sent (w_env w)) rq = (Returns resp, dt) ->
     400 <= status_code resp < 600 ->
     fst r = Returns None /\
     exists msg, after = (before ++ [("Error downloading image: " ++ msg)%string])%list) /\
  (forall ex dt,
     net (sent (w_env w)) rq = (Raises ex, dt) ->
     isinstance ex Exception = true ->
     fst r = Returns None /\
     after = (before ++ [("Error downloading image: " ++ exc_str ex)%string])%list).
Proof.
  cbv zeta.
  unfold download_image, try_except, lift_env, requests_send, of_outcome, st_error,
    update_session, modify, bind, ret, raise_for_status.
  cbn -[isinstance Z.leb Z.ltb str_of_int append Qplus].
  destruct (net (sent (w_env w)) (mkRequest GET url [] (Params VNone) 30))
    as [[resp | ex] dt] eqn:Hnet;
    cbn -[isinstance Z.leb Z.ltb str_of_int append Qplus].
  - destruct ((400 <=? status_code resp) && (status_code resp <? 500))%Z eqn:H4;
      [| destruct ((500 <=? status_code resp) && (status_code resp <? 600))%Z eqn:H5];
      cbn -[isinstance Z.leb Z.ltb str_of_int append Qplus];
      (split; [reflexivity |]); (split; [| split]);
      try (intros ex' dt' Hx; discriminate Hx);
      intros resp' dt' Hr Hst; injection Hr as <- <-;
      repeat match goal with
             | H : (_ && _)%bool = _ |- _ =>
                 rewrite ?andb_true_iff, ?andb_false_iff, ?Z.leb_le, ?Z.ltb_lt, ?Z.leb_gt,
                   ?Z.ltb_ge in H
             end;
      try lia; try (split; [reflexivity | eexists; reflexivity]);
      split; reflexivity.
  - destruct (isinstance ex Exception) eqn:Hex;
      cbn -[isinstance Z.leb Z.ltb str_of_int append Qplus];
      (split; [reflexivity |]); (split; [| split]);
      try (intros resp' dt' Hx; discriminate Hx);
      intros ex' dt' Hr Hex'; injection Hr as <- <-;
      try congruence; split; reflexivity.
Qed.

Lemma X22_download_image_witness :
  fst (download_image net_503 (fun _ => []) (fun _ => "Service Unavailable")
         (fun _ => "https://cdn.example.com/a.png") "https://cdn.example.com/a.png" world0)
  = Returns None /\
  fst (download_image net_timeout (fun _ => []) (fun _ => "")
         (fun _ => "") "https://cdn.example.com/a.png" world0)
  = Returns None.
Proof.
  split.
  - apply (proj1 (proj2 (proj2 (X22_download_image net_503 (fun _ => [])
             (fun _ => "Service Unavailable") (fun _ => "https://cdn.example.com/a.png")
             "https://cdn.example.com/a.png" world0)))
             (mkResponse 503 "Service Unavailable"
                (raise_ RequestsJSONDecodeError "Expecting value: line 1 column 1 (char 0)"))
             1%Q eq_refl).
    cbn [status_code]. lia.
  - apply (proj2 (proj2 (proj2 (X22_download_image net_timeout (fun _ => [])
             (fun _ => "") (fun _ => "") "https://cdn.example.com/a.png" world0)))
             (mkExc ReadTimeout "Read timed out. (read timeout=60)") 60%Q eq_refl eq_refl).
Defined.

(** ** A refused request, seen from the application *)

(** X23. With parameters in range and an answer whose status is not 200,
    nothing escapes [make_api_call]: it returns [(None, message)], where the
    message carries the status code and the body text of the answer, and it
    appends one entry with status "error" and that message to [api_calls],
    after the single request. *)
Theorem X23_refused_request_reported (net : transport) (identify : pil)
    (self : BaseAPIService) (prompt : string) (width height steps : Z) (guidance : Q)
    (service_name : string) (w : world) (resp : response) (dt : Q) :
  (forall f, ~ out_of_range f prompt width height steps guidance) ->
  net (sent (w_env w)) (hd_request self prompt width height steps guidance)
    = (Returns resp, dt) ->
  status_code resp <> 200 ->
  let msg := "Unexpected error for v1/text-to-image: "
               ++ ("API Error: " ++ str_of_int (status_code resp) ++ " - " ++ text resp) in
  let r := make_api_call service_name
             (generate_hd_image net identify self prompt width height steps guidance) w in
  fst r = Returns (VTuple [VNone; VStr msg]) /\
  (exists entry,
     api_calls (w_session (snd r)) = (api_calls (w_session w) ++ [entry])%list /\
     ac_status entry = "error" /\ ac_error entry = Some msg) /\
  sent (w_env (snd r))
    = (sent (w_env w) ++ [hd_request self prompt width height steps guidance])%list.
Proof.
  intros Hok Hnet Hst msg r.
  assert (Hcall : generate_hd_image net identify self prompt width height steps guidance
                    (w_env w)
                  = (Raises (mkExc RequestException msg),
                     after_send (w_env w)
                       (hd_request self prompt width height steps guidance) dt)).
  { rewrite (generate_hd_image_valid net identify self prompt width height steps guidance
               (w_env w) Hok).
    rewrite <- hd_request_of in Hnet |- *.
    now rewrite (make_request_not_200 net self "v1/text-to-image" "POST"
                   (request_data prompt width height steps guidance) VNone 60 (w_env w)
                   eq_refl resp dt Hnet Hst). }
  subst r. rewrite (make_api_call_caught service_name _ w _ _ Hcall eq_refl).
  cbn [fst snd w_env w_session logged api_calls after_send sent exc_str].
  split; [reflexivity |]. split; [| reflexivity].
  eexists. repeat split.
Qed.

Lemma X23_refused_request_reported_witness :
  fst (make_api_call "hd_image_generation"
         (generate_hd_image net_503 (fun _ => true) service0 "a red shoe" 512 512 20
            (75 # 10)) world0)
  = Returns (VTuple [VNone;
       VStr "Unexpected error for v1/text-to-image: API Error: 503 - Service Unavailable"]).
Proof.
  apply (X23_refused_request_reported net_503 (fun _ => true) service0 "a red shoe"
           512 512 20 (75 # 10) "hd_image_generation" world0
           (mkResponse 503 "Service Unavailable"
              (raise_ RequestsJSONDecodeError "Expecting value: line 1 column 1 (char 0)"))
           1%Q).
  - intros [] H; cbn [out_of_range] in H.
    + vm_compute in H. discriminate H.
    + vm_compute in H. intuition discriminate.
    + vm_compute in H. intuition discriminate.
    + lia.
    + vm_compute in H. intuition discriminate.
  - reflexivity.
  - cbn [status_code]. lia.
Defined.

(** ** The bounded history *)

(** C7 (amended). The generation history kept by [log_generation_attempt] is
    bounded.  Every call that returns, and in a session that starts from the
    initial state every call returns, appends its entry and keeps the last
    hundred entries: the history never exceeds one hundred entries, the
    entries dropped are the oldest, and the entries kept are the ones that
    were there, unchanged and in order.  The [api_calls] log of
    [PerformanceMonitor.log_api_call] is append-only and has no cap: each call
    adds its entry at the end and keeps all the others. *)
Theorem C7_history_capped_api_calls_append_only :
  (forall op ok d err w,
     let h := generation_history (w_session w) in
     let entry := mkHistory (now (w_env w)) op ok d err in
     let r := log_generation_attempt op ok d err w in
     let h' := generation_history (w_session (snd r)) in
     fst r = Returns tt ->
     (List.length h' <= 100)%nat /\
     exists dropped,
       (h ++ [entry])%list = (dropped ++ h')%list /\
       List.length dropped = (List.length (h ++ [entry]) - 100)%nat) /\
  (forall l a,
     let w := mkWorld (at_env a) (w_session (run_attempts l world0)) in
     fst (log_generation_attempt (at_operation a) (at_success a) (at_duration a)
            (at_error a) w) = Returns tt /\
     (List.length (generation_history (w_session (run_attempts l world0))) <= 100)%nat) /\
  (forall service duration status error w,
     api_calls (w_session (snd (log_api_call service duration status error w))) =
     (api_calls (w_session w)
        ++ [mkApiCall service duration status error (now (w_env w))])%list).
Proof.
  split; [| split].
  - intros op ok d err w h entry r h' Hret.
    destruct (log_generation_attempt_history op ok d err w) as [[_ Hh] | [Hne _]];
      [| contradiction].
    fold h entry r h' in Hh. rewrite Hh.
    destruct (100 <? _)%nat eqn:Hlt.
    + split.
      * rewrite last_n_length. lia.
      * apply last_n_suffix.
    + apply Nat.ltb_ge in Hlt. split; [exact Hlt |].
      exists []. split; [reflexivity | cbn [List.length]; lia].
  - intros l a w. split.
    + destruct (run_attempts_counters l world0) as [Hsg _];
        try (cbn; lia); try reflexivity.
      subst w. destruct (at_success a).
      * now apply log_generation_attempt_success_returns.
      * now rewrite log_generation_attempt_failure.
    + apply run_attempts_history_bound. cbn. lia.
  - reflexivity.
Qed.

Lemma C7_history_capped_witness :
  let entry :=
    mkHistory (now (w_env full_world)) "HD Image Generation" false (Some 3%Q)
      (Some "Network error: x") in
  let r :=
    log_generation_attempt "HD Image Generation" false (Some 3%Q)
      (Some "Network error: x") full_world in
  List.length (generation_history (w_session full_world)) = 100%nat /\
  (List.length (generation_history (w_session (snd r))) <= 100)%nat /\
  exists dropped,
    (generation_history (w_session full_world) ++ [entry])%list
      = (dropped ++ generation_history (w_session (snd r)))%list /\
    List.length dropped = 1%nat.
Proof.
  cbv zeta. split; [vm_compute; reflexivity |].
  destruct (proj1 C7_history_capped_api_calls_append_only "HD Image Generation" false
              (Some 3%Q) (Some "Network error: x") full_world)
    as [Hlen [dropped [Heq Hd]]].
  - vm_compute. reflexivity.
  - split; [exact Hlen |]. exists dropped. split; [exact Heq |].
    rewrite Hd. vm_compute. reflexivity.
Defined.
